(** * pyFAI geometry refinement: a shallow embedding of [geometryRefinement.py]

    The class [GeometryRefinement] is embedded as a record holding the
    attributes the refinement code reads and writes.  Methods become functions
    in a small state-and-exception monad: a raised Python exception leaves the
    mutations made before it in place, so every method returns its outcome
    together with the object as it stands afterwards.

    Numbers.  A Python float is modelled by a real number: arithmetic is exact
    and binary64 rounding, overflow and signed zeros are outside the model.
    The one non-number the residual code can produce, numpy's nan (arcsin
    outside its domain), is kept as a value of its own, with the comparison
    rules of IEEE 754 (every comparison with nan is false).  Equalities
    between numbers are equalities of reals; where a statement turns on the
    last bit of a result, the computation is repeated on binary64 doubles
    ([tolerance_window_b64]).

    Collaborators that live outside the file (the forward model [tth], the
    detector's pixel-to-metre conversion, the scipy minimizers, the roca
    executable and Python's [float] parser) are variables of the section. *)

From Stdlib Require Import Floats.PrimFloat.
From Stdlib Require Import Floats.PrimFloat.
From Stdlib Require Import String.
From Stdlib Require Import Reals Lra List ZArith Bool Lia Permutation.
Import ListNotations.
Open Scope R_scope.
#[local] Set Warnings "-inexact-float".

(** ** Python outcomes *)

Inductive exn : Type :=
| IndexError
| ValueError
| AttributeError
| UnboundLocalError.

Inductive result (A : Type) : Type :=
| Ok (a : A)
| Raise (e : exn).
Arguments Ok {A} a.
Arguments Raise {A} e.

Definition rbind {A B} (r : result A) (k : A -> result B) : result B :=
  match r with
  | Ok a => k a
  | Raise e => Raise e
  end.

Declare Scope result_scope.
Delimit Scope result_scope with result.
Notation "x <- r ;; k" := (rbind r (fun x => k))
  (at level 61, r at next level, right associativity) : result_scope.
Notation "' pat <- r ;; k" := (rbind r (fun x => match x with pat => k end))
  (at level 61, pat pattern, r at next level, right associativity) : result_scope.
Open Scope result_scope.

(** A numpy float: a real number, or nan. *)
Inductive fl : Type :=
| Fin (r : R)
| NaN.

(** What a method hands back: a float, or [None] when it has no [return]. *)
Inductive pyval : Type :=
| PyFloat (x : fl)
| PyNone.

(** ** numpy float arithmetic used by the residuals *)

Definition fl_rsub (a : R) (x : fl) : fl :=
  match x with Fin r => Fin (a - r) | NaN => NaN end.

Definition fl_scale (k : R) (x : fl) : fl :=
  match x with Fin r => Fin (k * r) | NaN => NaN end.

Definition fl_sqr (x : fl) : fl :=
  match x with Fin r => Fin (r * r) | NaN => NaN end.

Definition fl_add (x y : fl) : fl :=
  match x, y with
  | Fin a, Fin b => Fin (a + b)
  | _, _ => NaN
  end.

(** [ndarray.sum()] *)
Definition fl_sum (l : list fl) : fl := fold_right fl_add (Fin 0) l.

(** [x < y] on floats: false as soon as one side is nan. *)
Definition fl_ltb (x y : fl) : bool :=
  match x, y with
  | Fin a, Fin b => if Rlt_dec a b then true else false
  | _, _ => false
  end.

(** [numpy.arcsin]: nan outside [-1, 1]. *)
Definition np_arcsin (x : R) : fl :=
  if Rle_dec (-1) x then if Rle_dec x 1 then Fin (asin x) else NaN else NaN.

(** [numpy.arcsin (x / y)] on float arrays.  A quotient by zero is an
    infinity or nan, and arcsin sends both to nan. *)
Definition np_arcsin_div (x y : R) : fl :=
  if Req_dec_T y 0 then NaN else np_arcsin (x / y).

(** Conversion of a float to [numpy.int32]: truncation toward zero; a value
    that does not fit becomes the smallest int32 (the x86 conversion). *)
Definition Rtrunc (x : R) : Z :=
  if Rle_dec 0 x then Int_part x else (- Int_part (- x))%Z.

Definition int32_of (x : R) : Z :=
  let z := Rtrunc x in
  if ((- 2147483648 <=? z) && (z <? 2147483648))%Z then z else (- 2147483648)%Z.

Definition astype_int32 (a : list R) : list R :=
  map (fun x => IZR (int32_of x)) a.

(** ** Sequences *)

(** [a[i]] for a natural index. *)
Definition getitem {A} (a : list A) (i : nat) : result A :=
  match nth_error a i with
  | Some x => Ok x
  | None => Raise IndexError
  end.

(** [a[i]] for a numpy integer index: negative indices count from the end. *)
Definition np_getitem (a : list R) (i : Z) : result R :=
  let n := Z.of_nat (length a) in
  let j := if (i <? 0)%Z then (i + n)%Z else i in
  if ((0 <=? j) && (j <? n))%Z then getitem a (Z.to_nat j) else Raise IndexError.

(** [a[idx]] for an index array. *)
Fixpoint np_take (a : list R) (idx : list Z) : result (list R) :=
  match idx with
  | [] => Ok []
  | i :: rest =>
      x <- np_getitem a i ;;
      xs <- np_take a rest ;;
      Ok (x :: xs)
  end.

(** Elementwise operation on two arrays of one shape. *)
Fixpoint map2 {A B C} (f : A -> B -> C) (a : list A) (b : list B) : list C :=
  match a, b with
  | x :: a', y :: b' => f x y :: map2 f a' b'
  | _, _ => []
  end.

(** The float matrix [self.data]: [shape[-1]] and the rows. *)
Record ndarray2 : Type := {
  ncols : nat;
  rows : list (list R)
}.

(** [m[:, k]] *)
Definition col (k : nat) (m : ndarray2) : result (list R) :=
  if (k <? ncols m)%nat then Ok (map (fun r => nth k r 0) (rows m))
  else Raise IndexError.

(** [self.param] is a Python list in some methods and a numpy array in
    others; only a list has [append]. *)
Inductive pyvec : Type :=
| PyList (l : list R)
| NdArray (l : list R).

Definition vec (p : pyvec) : list R :=
  match p with PyList l => l | NdArray l => l end.

(** ** The object *)

Record Bounds : Type := {
  _dist_min : R; _dist_max : R;
  _poni1_min : R; _poni1_max : R;
  _poni2_min : R; _poni2_max : R;
  _rot1_min : R; _rot1_max : R;
  _rot2_min : R; _rot2_max : R;
  _rot3_min : R; _rot3_max : R;
  _wavelength_min : R; _wavelength_max : R
}.

Record GeometryRefinement : Type := {
  data : ndarray2;
  dSpacing : list R;
  pixel1 : R;
  pixel2 : R;
  dist : R;
  poni1 : R;
  poni2 : R;
  rot1 : R;
  rot2 : R;
  rot3 : R;
  wavelength : R;
  param : pyvec;
  bounds : Bounds
}.

Definition set_param (self : GeometryRefinement) (p : pyvec) : GeometryRefinement :=
  {| data := data self; dSpacing := dSpacing self;
     pixel1 := pixel1 self; pixel2 := pixel2 self;
     dist := dist self; poni1 := poni1 self; poni2 := poni2 self;
     rot1 := rot1 self; rot2 := rot2 self; rot3 := rot3 self;
     wavelength := wavelength self; param := p; bounds := bounds self |}.

Definition set_poni (self : GeometryRefinement) (p1 p2 : R) : GeometryRefinement :=
  {| data := data self; dSpacing := dSpacing self;
     pixel1 := pixel1 self; pixel2 := pixel2 self;
     dist := dist self; poni1 := p1; poni2 := p2;
     rot1 := rot1 self; rot2 := rot2 self; rot3 := rot3 self;
     wavelength := wavelength self; param := param self; bounds := bounds self |}.

(** [self.dist, self.poni1, self.poni2, self.rot1, self.rot2, self.rot3 = ...] *)
Definition set_pose (self : GeometryRefinement) (a b c d e f : R) : GeometryRefinement :=
  {| data := data self; dSpacing := dSpacing self;
     pixel1 := pixel1 self; pixel2 := pixel2 self;
     dist := a; poni1 := b; poni2 := c;
     rot1 := d; rot2 := e; rot3 := f;
     wavelength := wavelength self; param := param self; bounds := bounds self |}.

Definition set_wavelength (self : GeometryRefinement) (w : R) : GeometryRefinement :=
  {| data := data self; dSpacing := dSpacing self;
     pixel1 := pixel1 self; pixel2 := pixel2 self;
     dist := dist self; poni1 := poni1 self; poni2 := poni2 self;
     rot1 := rot1 self; rot2 := rot2 self; rot3 := rot3 self;
     wavelength := w; param := param self; bounds := bounds self |}.

Definition set_bounds (self : GeometryRefinement) (b : Bounds) : GeometryRefinement :=
  {| data := data self; dSpacing := dSpacing self;
     pixel1 := pixel1 self; pixel2 := pixel2 self;
     dist := dist self; poni1 := poni1 self; poni2 := poni2 self;
     rot1 := rot1 self; rot2 := rot2 self; rot3 := rot3 self;
     wavelength := wavelength self; param := param self; bounds := b |}.

(** The six pose fields in the order of the parameter vector, and the same
    with the wavelength. *)
Definition pose (self : GeometryRefinement) : list R :=
  [dist self; poni1 self; poni2 self; rot1 self; rot2 self; rot3 self].

Definition pose7 (self : GeometryRefinement) : list R :=
  pose self ++ [wavelength self].

(** ** Methods as state transformers *)

Definition M (A : Type) : Type :=
  GeometryRefinement -> result A * GeometryRefinement.

Definition ret {A} (a : A) : M A := fun self => (Ok a, self).
Definition raise {A} (e : exn) : M A := fun self => (Raise e, self).
Definition lift {A} (r : result A) : M A := fun self => (r, self).
Definition bind {A B} (m : M A) (k : A -> M B) : M B :=
  fun self =>
    match m self with
    | (Ok a, self') => k a self'
    | (Raise e, self') => (Raise e, self')
    end.
Definition get : M GeometryRefinement := fun self => (Ok self, self).
Definition modify (f : GeometryRefinement -> GeometryRefinement) : M unit :=
  fun self => (Ok tt, f self).

Declare Scope method_scope.
Delimit Scope method_scope with method.
Notation "x <~ m ;; k" := (bind m (fun x => k))
  (at level 61, m at next level, right associativity) : method_scope.
Notation "m ;;; k" := (bind m (fun _ => k))
  (at level 61, right associativity) : method_scope.
Open Scope method_scope.

(** Unfolding a method body down to the [result]s it sequences. *)
Ltac open_method :=
  unfold bind, modify, get, lift, ret, raise;
  cbn [fst snd data param set_param vec dSpacing wavelength].

(** Destruct the successive [result]s of a method body; an exception ends
    the call with nothing committed. *)
Ltac split_result :=
  repeat match goal with
    | |- context [match ?x with Ok _ => _ | Raise _ => _ end] =>
        let E := fresh "E" in
        destruct x eqn:E;
        [ | left; eexists; reflexivity ]
    end.

(** Close a classification goal from the case lemma [lem] of the accepting
    tail reached with chi-squared [old] and [new] and candidate [cand]. *)
Ltac finish_accept lem old new cand self1 :=
  right; exists cand, old, new;
  split; [assumption | split; [assumption|]];
  destruct (lem old new cand self1) as [[Hlt H]|[Hlt H]];
  [ left; split; [assumption | rewrite H; reflexivity]
  | right; split; [assumption|];
    destruct H as [[e H]|[[Hl H]|[Hl H]]];
    [ left; exists e; rewrite H; reflexivity
    | right; left; split; [assumption | rewrite H; reflexivity]
    | right; right; split; [assumption | rewrite H; reflexivity] ] ].

(** ** Parameter names *)

(** The strings of the lists [d] in [refine2] and [refine2_wavelength]; the
    attribute lookups [getattr(self, i)] and [getattr(self, "_%s_min" % i)]
    range over them only. *)
Inductive pname : Type :=
| Pdist | Pponi1 | Pponi2 | Prot1 | Prot2 | Prot3 | Pwavelength.

Definition name_of (i : pname) : string :=
  match i with
  | Pdist => "dist" | Pponi1 => "poni1" | Pponi2 => "poni2"
  | Prot1 => "rot1" | Prot2 => "rot2" | Prot3 => "rot3"
  | Pwavelength => "wavelength"
  end%string.

Definition getattr (self : GeometryRefinement) (i : pname) : R :=
  match i with
  | Pdist => dist self | Pponi1 => poni1 self | Pponi2 => poni2 self
  | Prot1 => rot1 self | Prot2 => rot2 self | Prot3 => rot3 self
  | Pwavelength => wavelength self
  end.

Definition getattr_min (self : GeometryRefinement) (i : pname) : R :=
  let b := bounds self in
  match i with
  | Pdist => _dist_min b | Pponi1 => _poni1_min b | Pponi2 => _poni2_min b
  | Prot1 => _rot1_min b | Prot2 => _rot2_min b | Prot3 => _rot3_min b
  | Pwavelength => _wavelength_min b
  end.

Definition getattr_max (self : GeometryRefinement) (i : pname) : R :=
  let b := bounds self in
  match i with
  | Pdist => _dist_max b | Pponi1 => _poni1_max b | Pponi2 => _poni2_max b
  | Prot1 => _rot1_max b | Prot2 => _rot2_max b | Prot3 => _rot3_max b
  | Pwavelength => _wavelength_max b
  end.

Definition d6 : list pname := [Pdist; Pponi1; Pponi2; Prot1; Prot2; Prot3].
Definition d7 : list pname := d6 ++ [Pwavelength].

(** [i in fix] *)
Definition in_fix (i : pname) (fix_ : list string) : bool :=
  existsb (String.eqb (name_of i)) fix_.

(** The loop building [bounds] in the bounded strategies. *)
Definition make_bounds (self : GeometryRefinement) (d : list pname)
    (fix_ : list string) : list (R * R) :=
  map (fun i =>
         if in_fix i fix_ then (getattr self i, getattr self i)
         else (getattr_min self i, getattr_max self i)) d.

(** [l[-1] = f (l[-1])] on a non-empty list. *)
Fixpoint update_last {A} (f : A -> A) (l : list A) : list A :=
  match l with
  | [] => []
  | [x] => [f x]
  | x :: t => x :: update_last f t
  end.

(** ** The diagnostic log line

    [i = abs(self.param - newParam).argmax()] followed by a log call whose
    arguments [d[i]], [self.param[i]] and [newParam[i]] are evaluated.  It
    changes nothing, but it raises when the two vectors do not broadcast or
    an index is out of range. *)

Definition np_sub (p q : list R) : result (list R) :=
  if (length p =? length q)%nat then Ok (map2 Rminus p q)
  else
    match p, q with
    | [x], _ => Ok (map (fun y => x - y) q)
    | _, [y] => Ok (map (fun x => x - y) p)
    | _, _ => Raise ValueError
    end.

Fixpoint argmax_from (best : R) (bi i : nat) (l : list R) : nat :=
  match l with
  | [] => bi
  | x :: t =>
      if Rlt_dec best x then argmax_from x i (S i) t
      else argmax_from best bi (S i) t
  end.

Definition np_argmax (l : list R) : result nat :=
  match l with
  | [] => Raise ValueError
  | x :: t => Ok (argmax_from x 0%nat 1%nat t)
  end.

Definition log_maxdelta (d : list pname) (p q : list R) : result unit :=
  delta <- np_sub p q ;;
  i <- np_argmax (map Rabs delta) ;;
  _ <- getitem d i ;;
  _ <- getitem p i ;;
  _ <- getitem q i ;;
  Ok tt.

(** ** [guess_poni] helpers *)

Definition Rltb (x y : R) : bool := if Rlt_dec x y then true else false.

(** [data[data[:, 2].argsort()]]: the rows in increasing order of column 2.
    numpy's default sort is not stable; the order of rows with equal keys is
    one of the orders it may produce. *)
Fixpoint insert_row (r : list R) (l : list (list R)) : list (list R) :=
  match l with
  | [] => [r]
  | x :: t =>
      if Rle_dec (nth 2 r 0) (nth 2 x 0) then r :: l else x :: insert_row r t
  end.

Fixpoint argsort_rows (l : list (list R)) : list (list R) :=
  match l with
  | [] => []
  | r :: t => insert_row r (argsort_rows t)
  end.

(** [a.min()]: raises on an empty array. *)
Definition np_min (a : list R) : result R :=
  match a with
  | [] => Raise ValueError
  | x :: t => Ok (fold_left Rmin t x)
  end.

(** [a.sum()] on an array of finite floats. *)
Definition np_sum (a : list R) : R := fold_right Rplus 0 a.

(** The unweighted mean of [f] over the rows of a ring: [sum() / l]. *)
Definition centroid (f : list R -> R) (ring : list (list R)) : R :=
  np_sum (map f ring) / INR (length ring).

(** A value that honours a (min, max) pair handed to a bounded minimizer. *)
Definition within (x : R) (b : R * R) : Prop := fst b <= x <= snd b.

(** A (min, max) pair that is not inverted. *)
Definition ordered (b : R * R) : Prop := fst b <= snd b.

(** ** A concrete setting

    One observation at pixel (0, 0) on ring 0, a d-spacing table in angstrom,
    the default bounds of [__init__] for a pixel size of 1e-4, and trivial
    collaborators.  The examples run the definitions on it. *)

Definition set_dSpacing (self : GeometryRefinement) (ds : list R) : GeometryRefinement :=
  {| data := data self; dSpacing := ds;
     pixel1 := pixel1 self; pixel2 := pixel2 self;
     dist := dist self; poni1 := poni1 self; poni2 := poni2 self;
     rot1 := rot1 self; rot2 := rot2 self; rot3 := rot3 self;
     wavelength := wavelength self; param := param self; bounds := bounds self |}.

Definition set_data (self : GeometryRefinement) (m : ndarray2) : GeometryRefinement :=
  {| data := m; dSpacing := dSpacing self;
     pixel1 := pixel1 self; pixel2 := pixel2 self;
     dist := dist self; poni1 := poni1 self; poni2 := poni2 self;
     rot1 := rot1 self; rot2 := rot2 self; rot3 := rot3 self;
     wavelength := wavelength self; param := param self; bounds := bounds self |}.

Definition data0 : ndarray2 := {| ncols := 3; rows := [[0; 0; 0]] |}.

(** Two observations, the second on the innermost ring. *)
Definition data1 : ndarray2 := {| ncols := 3; rows := [[3; 4; 1]; [1; 2; 0]] |}.

(** Five columns: neither the plain nor the weighted layout. *)
Definition data5 : ndarray2 := {| ncols := 5; rows := [[0; 0; 0; 1; 1]] |}.

(** No observation at all. *)
Definition data_empty : ndarray2 := {| ncols := 3; rows := [] |}.

(** Two columns only: no ring column. *)
Definition data2 : ndarray2 := {| ncols := 2; rows := [[0; 0]] |}.

(** A roca that prints a banner and a three-word line of no known name. *)
Definition noisy_roca : list (list R) -> list R -> list (list string) :=
  fun _ _ => [["roca"; "v1"]; ["chi"; "0.5"; "none"]]%string.

Definition bounds0 : Bounds :=
  {| _dist_min := 0; _dist_max := 10;
     _poni1_min := -10000 * 1e-4; _poni1_max := 15000 * 1e-4;
     _poni2_min := -10000 * 1e-4; _poni2_max := 15000 * 1e-4;
     _rot1_min := - PI; _rot1_max := PI;
     _rot2_min := - PI; _rot2_max := PI;
     _rot3_min := - PI; _rot3_max := PI;
     _wavelength_min := 1e-15; _wavelength_max := 100e-10 |}.

Definition engine0 : GeometryRefinement :=
  {| data := data0; dSpacing := [3];
     pixel1 := 1e-4; pixel2 := 1e-4;
     dist := 1; poni1 := 0; poni2 := 0; rot1 := 0; rot2 := 0; rot3 := 0;
     wavelength := 1e-10;
     param := PyList [1; 0; 0; 0; 0; 0];
     bounds := bounds0 |}.

(** The chi-squared of every vector on [engine0] under the forward model
    [tth0] below: one squared residual, that of angle 0 against the
    reference angle, plus the 0 the sum starts from. *)
Definition chi2_0 : fl :=
  Fin ((0 - 2.0 * asin (1e-10 / (2.0e-10 * 3)))
       * (0 - 2.0 * asin (1e-10 / (2.0e-10 * 3))) + 0).

(** A forward model that predicts angle 0 everywhere, a detector with square
    pixels of 1e-4, minimizers that hand their start vector back, a roca
    that prints nothing, and a [float] that parses nothing. *)
Definition tth0 : R -> R -> list R -> R := fun _ _ _ => 0.
Definition cartesian0 : R -> R -> R * R := fun d1 d2 => (1e-4 * d1, 1e-4 * d2).
Definition noop_leastsq :
  (list R -> result (list fl)) -> list R -> result (list R * Z) :=
  fun _ x0 => Ok (x0, 1%Z).
Definition noop_slsqp :
  (list R -> result fl) -> list R -> nat -> list (R * R) -> result (list R) :=
  fun _ x0 _ _ => Ok x0.
Definition noop_fmin : (list R -> result fl) -> list R -> nat -> result (list R) :=
  fun _ x0 _ => Ok x0.
Definition noop_anneal :
  (list R -> result fl) -> list R -> list R -> list R -> nat -> result (list R) :=
  fun _ x0 _ _ _ => Ok x0.
Definition silent_roca : list (list R) -> list R -> list (list string) :=
  fun _ _ => [].
Definition no_float : string -> option R := fun _ => None.

(** A second setting, in which [self.param] is out of date: the pose has
    distance 1 while [self.param] still holds distance 3.  The wavelength is
    0, so every reference angle is 0; the forward model returns the distance;
    roca prints the line [dis 2 m], which [float_two] can parse. *)
Definition engine_stale : GeometryRefinement :=
  {| data := data0; dSpacing := [3];
     pixel1 := 1e-4; pixel2 := 1e-4;
     dist := 1; poni1 := 0; poni2 := 0; rot1 := 0; rot2 := 0; rot3 := 0;
     wavelength := 0;
     param := PyList [3; 0; 0; 0; 0; 0];
     bounds := bounds0 |}.
Definition tth_dist : R -> R -> list R -> R := fun _ _ p => nth 0 p 0.
Definition roca_dis2 : list (list R) -> list R -> list (list string) :=
  fun _ _ => [["dis"; "2"; "m"]]%string.
Definition float_two : string -> option R :=
  fun s => if (s =? "2")%string then Some 2 else None.

(** A least-squares routine that answers with the zero vector. *)
Definition zero_leastsq :
  (list R -> result (list fl)) -> list R -> result (list R * Z) :=
  fun _ _ => Ok ([0; 0; 0; 0; 0; 0], 1%Z).

(** A bounded minimizer that answers with its start vector, the first entry
    (the distance) brought to zero. *)
Definition zero_dist_slsqp :
  (list R -> result fl) -> list R -> nat -> list (R * R) -> result (list R) :=
  fun _ x0 _ _ => Ok (0 :: tl x0).

(** ** The fallback window on doubles

    [set_tolerance] on binary64, for one of the five fields that have the
    fallback window. *)

(** Python's [min(a, b)] and [max(a, b)] on two floats: the second argument
    replaces the first only if it compares strictly below (above) it. *)
Definition py_min (a b : float) : float := if (b <? a)%float then b else a.
Definition py_max (a b : float) : float := if (a <? b)%float then b else a.

(** [x ** 2] on a double: the correctly rounded square. *)
Definition sqr_b64 (x : float) : float := (x * x)%float.

(** Lines 122-123 and the [if]/[else] of lines 129-134 on doubles: the pair
    (min, max) assigned for a field whose current value is [x]. *)
Definition tolerance_window_b64 (value x : float) : float * float :=
  let low := (1.0 - value / 100)%float in
  let hi := (1.0 + value / 100)%float in
  if (sqr_b64 (value / 100) <? abs x)%float then
    (py_min (low * x) (hi * x), py_max (low * x) (hi * x))%float
  else (- sqr_b64 (value / 100), sqr_b64 (value / 100))%float.

(** ** The class *)

Section Engine.

(** [AzimuthalIntegrator.tth]: predicted angle of one pixel position under
    a parameter vector (only its first six entries matter to it). *)
Variable tth : R -> R -> list R -> R.

(** [self.detector.calc_cartesian_positions] at one pixel position. *)
Variable calc_cartesian_positions : R -> R -> R * R.

(** The scipy minimizers, each applied to the objective with its [args]
    already supplied.  [leastsq] returns the vector and a return code,
    [optimize_anneal] stands for [scipy.optimize.anneal(...)[0]]. *)
Variable leastsq :
  (list R -> result (list fl)) -> list R -> result (list R * Z).
Variable fmin_slsqp :
  (list R -> result fl) -> list R -> nat -> list (R * R) -> result (list R).
Variable fmin : (list R -> result fl) -> list R -> nat -> result (list R).
Variable optimize_anneal :
  (list R -> result fl) -> list R -> list R -> list R -> nat -> result (list R).

(** The roca executable: from the rows written to its input file and its
    numeric arguments to the words of each line it prints. *)
Variable ROCA : list (list R) -> list R -> list (list string).

(** Python's [float(str)]; [None] when it raises [ValueError]. *)
Variable float_of_string : string -> option R.

Definition np_tth (d1 d2 param : list R) : list R :=
  map2 (fun a b => tth a b param) d1 d2.

Definition calc_2th (self : GeometryRefinement) (rings : list R) (lambda : R)
  : result (list fl) :=
  let rings := map int32_of rings in
  ds <- np_take (dSpacing self) rings ;;
  Ok (map (fun ds_i => fl_scale 2.0 (np_arcsin_div lambda (2.0e-10 * ds_i))) ds).

Definition residu1 (self : GeometryRefinement) (param d1 d2 rings : list R)
  : result (list fl) :=
  let t := np_tth d1 d2 param in
  c <- calc_2th self rings (wavelength self) ;;
  Ok (map2 fl_rsub t c).

Definition residu1_wavelength (self : GeometryRefinement)
    (param d1 d2 rings : list R) : result (list fl) :=
  let t := np_tth d1 d2 param in
  p6 <- getitem param 6 ;;
  c <- calc_2th self rings (p6 * 1e-10) ;;
  Ok (map2 fl_rsub t c).

Definition residu2 (self : GeometryRefinement) (param d1 d2 rings : list R)
  : result fl :=
  r <- residu1 self param d1 d2 rings ;;
  Ok (fl_sum (map fl_sqr r)).

Definition residu2_weighted (self : GeometryRefinement)
    (param d1 d2 rings weight : list R) : result fl :=
  r <- residu1 self param d1 d2 rings ;;
  Ok (fl_sum (map2 fl_scale weight (map fl_sqr r))).

Definition residu2_wavelength (self : GeometryRefinement)
    (param d1 d2 rings : list R) : result fl :=
  r <- residu1_wavelength self param d1 d2 rings ;;
  Ok (fl_sum (map fl_sqr r)).

Definition residu2_wavelength_weighted (self : GeometryRefinement)
    (param d1 d2 rings weight : list R) : result fl :=
  r <- residu1_wavelength self param d1 d2 rings ;;
  Ok (fl_sum (map2 fl_scale weight (map fl_sqr r))).

(** [chi2(param)]; [None] stands for the omitted argument, which reads a
    copy of [self.param]. *)
Definition chi2 (self : GeometryRefinement) (param_ : option (list R))
  : result fl :=
  let p := match param_ with
           | None => vec (param self)
           | Some p => p
           end in
  c0 <- col 0 (data self) ;;
  c1 <- col 1 (data self) ;;
  c2 <- col 2 (data self) ;;
  residu2 self p c0 c1 c2.

(** The last statement of [chi2_wavelength], on a given vector. *)
Definition chi2_wavelength_on (self : GeometryRefinement) (p : list R)
  : result fl :=
  c0 <- col 0 (data self) ;;
  c1 <- col 1 (data self) ;;
  c2 <- col 2 (data self) ;;
  residu2_wavelength self p c0 c1 (astype_int32 c2).

(** [chi2_wavelength(param)].  Without an argument [param] is
    [self.param] itself, not a copy: [append] extends the attribute in
    place when it is a list, and does not exist when it is an array. *)
Definition chi2_wavelength (param_ : option (list R)) : M fl :=
  fun self =>
    match param_ with
    | Some p => (chi2_wavelength_on self p, self)
    | None =>
        match param self with
        | PyList l =>
            if (length l =? 6)%nat then
              let l' := l ++ [1e10 * wavelength self] in
              let self' := set_param self (PyList l') in
              (chi2_wavelength_on self' l', self')
            else (chi2_wavelength_on self l, self)
        | NdArray l =>
            if (length l =? 6)%nat then (Raise AttributeError, self)
            else (chi2_wavelength_on self l, self)
        end
    end.

(** [guess_poni] *)
Definition guess_poni : M unit :=
  self <~ get ;;
  tth_col <~ lift (col 2 (data self)) ;;
  let srtdata := argsort_rows (rows (data self)) in
  let tth_srt := map (fun r => nth 2 r 0) srtdata in
  tth_min <~ lift (np_min tth_srt) ;;
  let smallRing :=
    filter (fun r => Rltb (nth 2 r 0) (tth_min + 1e-6)) srtdata in
  let smallRing1 := map (fun r => nth 0 r 0) smallRing in
  let smallRing2 := map (fun r => nth 1 r 0) smallRing in
  let smallRing_in_m := map2 calc_cartesian_positions smallRing1 smallRing2 in
  let l := length smallRing in
  modify (fun self =>
            set_poni self
              (np_sum (map fst smallRing_in_m) / INR l)
              (np_sum (map snd smallRing_in_m) / INR l)).

(** The [if]/[else] that [set_tolerance] repeats for [poni1], [poni2],
    [rot1], [rot2] and [rot3] (lines 129-158): the pair (min, max) it
    assigns for a field whose current value is [x]. *)
Definition tolerance_window (value x : R) : R * R :=
  let low := 1.0 - value / 100 in
  let hi := 1.0 + value / 100 in
  if Rgt_dec (Rabs x) ((value / 100) ^ 2) then
    (Rmin (low * x) (hi * x), Rmax (low * x) (hi * x))
  else (- (value / 100) ^ 2, (value / 100) ^ 2).

(** [set_tolerance(value)]; the fourteen property setters it goes through
    coerce with [float], the identity here. *)
Definition set_tolerance (value : R) : M unit :=
  modify (fun self =>
    let low := 1.0 - value / 100 in
    let hi := 1.0 + value / 100 in
    set_bounds self
      {| _dist_min := low * dist self;
         _dist_max := hi * dist self;
         _poni1_min := fst (tolerance_window value (poni1 self));
         _poni1_max := snd (tolerance_window value (poni1 self));
         _poni2_min := fst (tolerance_window value (poni2 self));
         _poni2_max := snd (tolerance_window value (poni2 self));
         _rot1_min := fst (tolerance_window value (rot1 self));
         _rot1_max := snd (tolerance_window value (rot1 self));
         _rot2_min := fst (tolerance_window value (rot2 self));
         _rot2_max := snd (tolerance_window value (rot2 self));
         _rot3_min := fst (tolerance_window value (rot3 self));
         _rot3_max := snd (tolerance_window value (rot3 self));
         _wavelength_min := low * wavelength self;
         _wavelength_max := hi * wavelength self |}).

(** The statements of [__init__] that follow the call of
    [AzimuthalIntegrator.__init__] (lines 74-99), on the object as that call
    and the assignment of [self.data] left it.  A d-spacing table named by a
    file comes as the list [numpy.loadtxt] read from it. *)
Definition __init__ (poni1_ poni2_ : option R) (dSpacing_ : option (list R))
  : M unit :=
  (match poni1_, poni2_ with
   | Some p1, Some p2 => modify (fun self => set_poni self p1 p2)
   | _, _ => guess_poni
   end) ;;;
  modify (fun self =>
    set_bounds self
      {| _dist_min := 0; _dist_max := 10;
         _poni1_min := -10000 * pixel1 self;
         _poni1_max := 15000 * pixel1 self;
         _poni2_min := -10000 * pixel2 self;
         _poni2_max := 15000 * pixel2 self;
         _rot1_min := - PI; _rot1_max := PI;
         _rot2_min := - PI; _rot2_max := PI;
         _rot3_min := - PI; _rot3_max := PI;
         _wavelength_min := 1e-15; _wavelength_max := 100e-10 |}) ;;;
  modify (fun self =>
    set_dSpacing self
      match dSpacing_ with
      | Some ds => ds
      | None => []
      end).

(** *** Refinement strategies *)

(** The tail shared by [refine1], [refine2], [simplex] and [anneal]
    (lines 204-214, 253-263, 336-346, 372-382): log, assign [self.param],
    unpack the six pose fields, return the better chi-squared. *)
Definition accept6 (oldDeltaSq newDeltaSq : fl) (newParam : list R) : M pyval :=
  fun self =>
    if fl_ltb newDeltaSq oldDeltaSq then
      match log_maxdelta d6 (vec (param self)) newParam with
      | Raise e => (Raise e, self)
      | Ok _ =>
          let self1 := set_param self (NdArray newParam) in
          match newParam with
          | [a; b; c; d; e; f] =>
              (Ok (PyFloat newDeltaSq), set_pose self1 a b c d e f)
          | _ => (Raise ValueError, self1)
          end
      end
    else (Ok (PyFloat oldDeltaSq), self).

Definition refine1 : M pyval :=
  modify (fun self => set_param self (NdArray (pose self))) ;;;
  self <~ get ;;
  c0 <~ lift (col 0 (data self)) ;;
  c1 <~ lift (col 1 (data self)) ;;
  c2 <~ lift (col 2 (data self)) ;;
  r <~ lift (leastsq (fun p => residu1 self p c0 c1 c2) (vec (param self))) ;;
  let newParam := fst r in
  oldDeltaSq <~ lift (chi2 self (Some (vec (param self)))) ;;
  newDeltaSq <~ lift (chi2 self (Some newParam)) ;;
  accept6 oldDeltaSq newDeltaSq newParam.

(** The [if]/[elif] on [self.data.shape[-1]] of [refine2]; [None] is the
    local [newParam] left unbound when neither branch runs. *)
Definition refine2_minimize (self : GeometryRefinement) (maxiter : nat)
    (bnds : list (R * R)) : result (option (list R)) :=
  if (ncols (data self) =? 3)%nat then
    pos0 <- col 0 (data self) ;;
    pos1 <- col 1 (data self) ;;
    c2 <- col 2 (data self) ;;
    let ring := astype_int32 c2 in
    newParam <- fmin_slsqp (fun p => residu2 self p pos0 pos1 ring)
                  (vec (param self)) maxiter bnds ;;
    Ok (Some newParam)
  else if (ncols (data self) =? 4)%nat then
    pos0 <- col 0 (data self) ;;
    pos1 <- col 1 (data self) ;;
    c2 <- col 2 (data self) ;;
    let ring := astype_int32 c2 in
    weight <- col 3 (data self) ;;
    newParam <- fmin_slsqp (fun p => residu2_weighted self p pos0 pos1 ring weight)
                  (vec (param self)) maxiter bnds ;;
    Ok (Some newParam)
  else Ok None.

(** Reading a local variable. *)
Definition local {A} (v : option A) : result A :=
  match v with
  | Some a => Ok a
  | None => Raise UnboundLocalError
  end.

Definition refine2 (maxiter : nat) (fix_ : list string) : M pyval :=
  self0 <~ get ;;
  let param_ := map (getattr self0) d6 in
  let bnds := make_bounds self0 d6 fix_ in
  modify (fun self => set_param self (NdArray param_)) ;;;
  self <~ get ;;
  newParam_ <~ lift (refine2_minimize self maxiter bnds) ;;
  oldDeltaSq <~ lift (chi2 self None) ;;
  newParam <~ lift (local newParam_) ;;
  newDeltaSq <~ lift (chi2 self (Some newParam)) ;;
  accept6 oldDeltaSq newDeltaSq newParam.

Definition refine2_wavelength_minimize (self : GeometryRefinement)
    (maxiter : nat) (bnds : list (R * R)) : result (option (list R)) :=
  if (ncols (data self) =? 3)%nat then
    pos0 <- col 0 (data self) ;;
    pos1 <- col 1 (data self) ;;
    c2 <- col 2 (data self) ;;
    let ring := astype_int32 c2 in
    newParam <- fmin_slsqp (fun p => residu2_wavelength self p pos0 pos1 ring)
                  (vec (param self)) maxiter bnds ;;
    Ok (Some newParam)
  else if (ncols (data self) =? 4)%nat then
    pos0 <- col 0 (data self) ;;
    pos1 <- col 1 (data self) ;;
    c2 <- col 2 (data self) ;;
    let ring := astype_int32 c2 in
    weight <- col 3 (data self) ;;
    newParam <- fmin_slsqp
                  (fun p => residu2_wavelength_weighted self p pos0 pos1 ring weight)
                  (vec (param self)) maxiter bnds ;;
    Ok (Some newParam)
  else Ok None.

(** Lines 311-320: the seven-entry variant of the tail. *)
Definition accept7 (oldDeltaSq newDeltaSq : fl) (newParam : list R) : M pyval :=
  fun self =>
    if fl_ltb newDeltaSq oldDeltaSq then
      match log_maxdelta d7 (vec (param self)) newParam with
      | Raise e => (Raise e, self)
      | Ok _ =>
          let self1 := set_param self (NdArray newParam) in
          match newParam with
          | [a; b; c; d; e; f; w] =>
              (Ok (PyFloat newDeltaSq),
               set_wavelength (set_pose self1 a b c d e f) (1e-10 * w))
          | _ => (Raise ValueError, self1)
          end
      end
    else (Ok (PyFloat oldDeltaSq), self).

Definition refine2_wavelength (maxiter : nat) (fix_ : list string) : M pyval :=
  modify (fun self => set_param self (NdArray (pose7 self))) ;;;
  self0 <~ get ;;
  let param_ := map (getattr self0) d7 in
  let bnds := make_bounds self0 d7 fix_ in
  let bnds := update_last (fun b => (fst b * 1e10, snd b * 1e10)) bnds in
  let param_ := update_last (fun x => 1e10 * x) param_ in
  modify (fun self => set_param self (NdArray param_)) ;;;
  self <~ get ;;
  newParam_ <~ lift (refine2_wavelength_minimize self maxiter bnds) ;;
  oldDeltaSq <~ chi2_wavelength None ;;
  newParam <~ lift (local newParam_) ;;
  newDeltaSq <~ chi2_wavelength (Some newParam) ;;
  accept7 oldDeltaSq newDeltaSq newParam.

Definition simplex (maxiter : nat) : M pyval :=
  modify (fun self => set_param self (NdArray (pose self))) ;;;
  self <~ get ;;
  c0 <~ lift (col 0 (data self)) ;;
  c1 <~ lift (col 1 (data self)) ;;
  c2 <~ lift (col 2 (data self)) ;;
  newParam <~ lift (fmin (fun p => residu2 self p c0 c1 c2)
                      (vec (param self)) maxiter) ;;
  oldDeltaSq <~ lift (chi2 self (Some (vec (param self)))) ;;
  newDeltaSq <~ lift (chi2 self (Some newParam)) ;;
  accept6 oldDeltaSq newDeltaSq newParam.

Definition anneal (maxiter : nat) : M pyval :=
  modify (fun self => set_param self (PyList (pose self))) ;;;
  self <~ get ;;
  c0 <~ lift (col 0 (data self)) ;;
  c1 <~ lift (col 1 (data self)) ;;
  c2 <~ lift (col 2 (data self)) ;;
  newParam <~ lift (optimize_anneal (fun p => residu2 self p c0 c1 c2)
                      (vec (param self))
                      (map (getattr_min self) d6)
                      (map (getattr_max self) d6)
                      maxiter) ;;
  oldDeltaSq <~ lift (chi2 self None) ;;
  newDeltaSq <~ lift (chi2 self (Some newParam)) ;;
  accept6 oldDeltaSq newDeltaSq newParam.

(** *** The roca delegate *)

(** The temporary file: one line [line[2] line[0] line[1]] per row. *)
Definition roca_input (m : ndarray2) : result (list (list R)) :=
  match rows m with
  | [] => Ok []
  | _ =>
      if (2 <? ncols m)%nat then
        Ok (map (fun line => [nth 2 line 0; nth 0 line 0; nth 1 line 0]) (rows m))
      else Raise IndexError
  end.

Definition py_float (s : string) : result R :=
  match float_of_string s with
  | Some v => Ok v
  | None => Raise ValueError
  end.

(** [l[i] = v] on a list long enough. *)
Fixpoint setitem (l : list R) (i : nat) (v : R) : list R :=
  match l, i with
  | [] , _ => []
  | _ :: t, O => v :: t
  | x :: t, S i' => x :: setitem t i' v
  end.

(** One [if word[0] == name: newParam[i] = float(word[1]) * scale]. *)
Definition roca_field (name : string) (i : nat) (scale : R)
    (w0 w1 : string) (newParam : list R) : result (list R) :=
  if (w0 =? name)%string then
    v <- py_float w1 ;;
    Ok (setitem newParam i (v * scale))
  else Ok newParam.

(** The body of [for line in roca.stdout]; each line comes as
    [line.split()].  The fields that are not rescaled are multiplied by 1. *)
Definition roca_line (self : GeometryRefinement) (word : list string)
    (newParam : list R) : result (list R) :=
  match word with
  | [w0; w1; _] =>
      p <- roca_field "cen1" 1 (pixel1 self) w0 w1 newParam ;;
      p <- roca_field "cen2" 2 (pixel2 self) w0 w1 p ;;
      p <- roca_field "dis" 0 1 w0 w1 p ;;
      p <- roca_field "rot1" 3 1 w0 w1 p ;;
      p <- roca_field "rot2" 4 1 w0 w1 p ;;
      roca_field "rot3" 5 1 w0 w1 p
  | _ => Ok newParam
  end.

Fixpoint roca_stdout (self : GeometryRefinement) (lines : list (list string))
    (newParam : list R) : result (list R) :=
  match lines with
  | [] => Ok newParam
  | word :: rest =>
      p <- roca_line self word newParam ;;
      roca_stdout self rest p
  end.

(** [roca()].  It takes no snapshot: the comparison is against
    [self.param] as the previous call left it; and it has no [return].
    The pixel sizes handed to the tool are positive by the detector's
    contract; the temporary file is modelled by its content only. *)
Definition roca : M pyval :=
  self <~ get ;;
  tmpf <~ lift (roca_input (data self)) ;;
  let out := ROCA tmpf [pixel1 self; pixel2 self;
                        poni1 self / pixel1 self; poni2 self / pixel2 self;
                        dist self; rot1 self; rot2 self; rot3 self] in
  newParam <~ lift (roca_stdout self out (pose self)) ;;
  _ <~ lift (chi2 self None) ;;
  _ <~ lift (chi2 self (Some newParam)) ;;
  newDeltaSq <~ lift (chi2 self (Some newParam)) ;;
  oldDeltaSq <~ lift (chi2 self (Some (vec (param self)))) ;;
  (if fl_ltb newDeltaSq oldDeltaSq then
     modify (fun self => set_param self (PyList newParam)) ;;;
     match newParam with
     | [a; b; c; d; e; f] => modify (fun self => set_pose self a b c d e f)
     | _ => raise ValueError
     end
   else ret tt) ;;;
  ret PyNone.

(** *** The strategies as one family *)

Inductive strategy : Type :=
| Refine1
| Refine2 (maxiter : nat) (fix_ : list string)
| Refine2_wavelength (maxiter : nat) (fix_ : list string)
| Simplex (maxiter : nat)
| Anneal (maxiter : nat)
| Roca.

Definition run (s : strategy) : M pyval :=
  match s with
  | Refine1 => refine1
  | Refine2 maxiter fix_ => refine2 maxiter fix_
  | Refine2_wavelength maxiter fix_ => refine2_wavelength maxiter fix_
  | Simplex maxiter => simplex maxiter
  | Anneal maxiter => anneal maxiter
  | Roca => roca
  end.

(** The vector a strategy compares its candidate against: the snapshot of
    the pose it stores in [self.param] on entry, or, for [roca], the
    [self.param] it finds. *)
Definition snapshot (s : strategy) (self : GeometryRefinement) : pyvec :=
  match s with
  | Refine1 | Refine2 _ _ | Simplex _ => NdArray (pose self)
  | Refine2_wavelength _ _ =>
      NdArray (pose self ++ [1e10 * wavelength self])
  | Anneal _ => PyList (pose self)
  | Roca => param self
  end.

(** The chi-squared a strategy uses for its decision. *)
Definition objective (s : strategy) (self : GeometryRefinement) (p : list R)
  : result fl :=
  match s with
  | Refine2_wavelength _ _ => chi2_wavelength_on self p
  | _ => chi2 self (Some p)
  end.

(** The object once a candidate is committed. *)
Definition committed (s : strategy) (self : GeometryRefinement)
    (cand : list R) : GeometryRefinement :=
  let n i := nth i cand 0 in
  match s with
  | Refine2_wavelength _ _ =>
      set_wavelength
        (set_pose (set_param self (NdArray cand))
           (n 0%nat) (n 1%nat) (n 2%nat) (n 3%nat) (n 4%nat) (n 5%nat))
        (1e-10 * n 6%nat)
  | Roca =>
      set_pose (set_param self (PyList cand))
        (n 0%nat) (n 1%nat) (n 2%nat) (n 3%nat) (n 4%nat) (n 5%nat)
  | _ =>
      set_pose (set_param self (NdArray cand))
        (n 0%nat) (n 1%nat) (n 2%nat) (n 3%nat) (n 4%nat) (n 5%nat)
  end.

(** The object when only [self.param] received the candidate: the pose
    fields could not be unpacked from a vector of the wrong length. *)
Definition param_only (s : strategy) (self : GeometryRefinement)
    (cand : list R) : GeometryRefinement :=
  match s with
  | Roca => set_param self (PyList cand)
  | _ => set_param self (NdArray cand)
  end.

Definition arity (s : strategy) : nat :=
  match s with
  | Refine2_wavelength _ _ => 7%nat
  | _ => 6%nat
  end.

(** The object a strategy leaves behind when it commits nothing. *)
Definition entry (s : strategy) (self : GeometryRefinement) : GeometryRefinement :=
  match s with
  | Roca => self
  | _ => set_param self (snapshot s self)
  end.

(** What a strategy returns when its decision yields chi-squared [x]:
    [roca] has no [return] statement. *)
Definition returned (s : strategy) (x : fl) : result pyval :=
  match s with
  | Roca => Ok PyNone
  | _ => Ok (PyFloat x)
  end.

(** The ways a strategy call can end: an exception before the decision; or a
    decision between the chi-squared [old] of the snapshot and [new] of a
    candidate, after which the candidate is dropped, or the log line raises,
    or the candidate is committed, or (wrong length) reaches [self.param]
    only. *)
Definition classified (s : strategy) (self : GeometryRefinement) : Prop :=
  let r := run s self in
  (exists e, r = (Raise e, entry s self))
  \/ exists cand old new,
       objective s self (vec (snapshot s self)) = Ok old /\
       objective s self cand = Ok new /\
       ((fl_ltb new old = false /\ r = (returned s old, entry s self))
        \/ (fl_ltb new old = true /\
            ((exists e, r = (Raise e, entry s self))
             \/ (length cand = arity s /\
                 r = (returned s new, committed s self cand))
             \/ (length cand <> arity s /\
                 r = (Raise ValueError, param_only s self cand))))).

(** The rows of the innermost ring, given the smallest value [m] of column 2. *)
Definition innermost (m : R) (l : list (list R)) : list (list R) :=
  filter (fun r => Rltb (nth 2 r 0) (m + 1e-6)) l.

(** [m] is the smallest value of column 2. *)
Definition is_tth_min (m : R) (l : list (list R)) : Prop :=
  In m (map (fun r => nth 2 r 0) l) /\
  Forall (fun r => m <= nth 2 r 0) l.

(** The vector a strategy submits to its decision: the call of the
    minimizer exactly as the method makes it (for [roca], the tool's output
    parsed over the current pose). *)
Definition candidate (s : strategy) (self : GeometryRefinement)
  : result (list R) :=
  let self1 := entry s self in
  match s with
  | Refine1 =>
      c0 <- col 0 (data self) ;;
      c1 <- col 1 (data self) ;;
      c2 <- col 2 (data self) ;;
      r <- leastsq (fun p => residu1 self1 p c0 c1 c2) (pose self) ;;
      Ok (fst r)
  | Refine2 maxiter fix_ =>
      newParam_ <- refine2_minimize self1 maxiter (make_bounds self d6 fix_) ;;
      local newParam_
  | Refine2_wavelength maxiter fix_ =>
      newParam_ <- refine2_wavelength_minimize self1 maxiter
                     (update_last (fun b => (fst b * 1e10, snd b * 1e10))
                        (make_bounds self d7 fix_)) ;;
      local newParam_
  | Simplex maxiter =>
      c0 <- col 0 (data self) ;;
      c1 <- col 1 (data self) ;;
      c2 <- col 2 (data self) ;;
      fmin (fun p => residu2 self1 p c0 c1 c2) (pose self) maxiter
  | Anneal maxiter =>
      c0 <- col 0 (data self) ;;
      c1 <- col 1 (data self) ;;
      c2 <- col 2 (data self) ;;
      optimize_anneal (fun p => residu2 self1 p c0 c1 c2) (pose self)
        (map (getattr_min self) d6) (map (getattr_max self) d6) maxiter
  | Roca =>
      tmpf <- roca_input (data self) ;;
      roca_stdout self
        (ROCA tmpf [pixel1 self; pixel2 self;
                    poni1 self / pixel1 self; poni2 self / pixel2 self;
                    dist self; rot1 self; rot2 self; rot3 self])
        (pose self)
  end.

(** A line of roca's output that the parsing loop acts on: exactly three
    words, the first of them one of the six names. *)
Definition recognised (word : list string) : bool :=
  match word with
  | [w0; _; _] =>
      existsb (String.eqb w0) ["cen1"; "cen2"; "dis"; "rot1"; "rot2"; "rot3"]%string
  | _ => false
  end.

(** * Properties *)

(** ** Float comparison *)

Lemma fl_ltb_irrefl (x : fl) : fl_ltb x x = false.
Proof.
  destruct x as [r|]; simpl; trivial.
  destruct (Rlt_dec r r) as [H|H]; trivial.
  exfalso; lra.
Qed.

Lemma fl_ltb_Fin (x y : fl) :
  fl_ltb x y = true -> exists a b, x = Fin a /\ y = Fin b /\ a < b.
Proof.
  destruct x as [a|], y as [b|]; simpl; try discriminate.
  destruct (Rlt_dec a b); try discriminate.
  intros _; exists a, b; auto.
Qed.

(** ** The objective does not read what a strategy writes *)

Lemma chi2_frame (self self' : GeometryRefinement) (p : list R) :
  data self' = data self -> dSpacing self' = dSpacing self ->
  wavelength self' = wavelength self ->
  chi2 self' (Some p) = chi2 self (Some p).
Proof.
  intros Hd Hs Hw.
  unfold chi2, residu2, residu1, calc_2th.
  rewrite Hd, Hs, Hw; reflexivity.
Qed.

Lemma chi2_wavelength_on_frame (self self' : GeometryRefinement) (p : list R) :
  data self' = data self -> dSpacing self' = dSpacing self ->
  chi2_wavelength_on self' p = chi2_wavelength_on self p.
Proof.
  intros Hd Hs.
  unfold chi2_wavelength_on, residu2_wavelength, residu1_wavelength, calc_2th.
  rewrite Hd, Hs; reflexivity.
Qed.

Lemma chi2_None (self : GeometryRefinement) :
  chi2 self None = chi2 self (Some (vec (param self))).
Proof. reflexivity. Qed.

(** ** The accepting tail *)

Lemma accept6_cases (old new : fl) (cand : list R) (self : GeometryRefinement) :
  (fl_ltb new old = false /\
   accept6 old new cand self = (Ok (PyFloat old), self))
  \/
  (fl_ltb new old = true /\
   ((exists e, accept6 old new cand self = (Raise e, self))
    \/ (length cand = 6%nat /\
        accept6 old new cand self =
        (Ok (PyFloat new),
         set_pose (set_param self (NdArray cand))
           (nth 0 cand 0) (nth 1 cand 0) (nth 2 cand 0)
           (nth 3 cand 0) (nth 4 cand 0) (nth 5 cand 0)))
    \/ (length cand <> 6%nat /\
        accept6 old new cand self =
        (Raise ValueError, set_param self (NdArray cand))))).
Proof.
  unfold accept6.
  destruct (fl_ltb new old); [right; split; trivial | left; auto].
  destruct (log_maxdelta d6 (vec (param self)) cand) as [u|e].
  - right.
    destruct cand as [|a [|b [|c [|d [|e [|f [|g t]]]]]]];
      try (right; split; [simpl; lia | reflexivity]).
    left; split; reflexivity.
  - left; exists e; reflexivity.
Qed.

Lemma accept7_cases (old new : fl) (cand : list R) (self : GeometryRefinement) :
  (fl_ltb new old = false /\
   accept7 old new cand self = (Ok (PyFloat old), self))
  \/
  (fl_ltb new old = true /\
   ((exists e, accept7 old new cand self = (Raise e, self))
    \/ (length cand = 7%nat /\
        accept7 old new cand self =
        (Ok (PyFloat new),
         set_wavelength
           (set_pose (set_param self (NdArray cand))
              (nth 0 cand 0) (nth 1 cand 0) (nth 2 cand 0)
              (nth 3 cand 0) (nth 4 cand 0) (nth 5 cand 0))
           (1e-10 * nth 6 cand 0)))
    \/ (length cand <> 7%nat /\
        accept7 old new cand self =
        (Raise ValueError, set_param self (NdArray cand))))).
Proof.
  unfold accept7.
  destruct (fl_ltb new old); [right; split; trivial | left; auto].
  destruct (log_maxdelta d7 (vec (param self)) cand) as [u|e].
  - right.
    destruct cand as [|a [|b [|c [|d [|e [|f [|g [|h t]]]]]]]];
      try (right; split; [simpl; lia | reflexivity]).
    left; split; reflexivity.
  - left; exists e; reflexivity.
Qed.

(** ** Every call ends in one of the classified ways *)

Lemma refine1_classified self : classified Refine1 self.
Proof.
  unfold classified, run, refine1. open_method.
  split_result.
  rewrite chi2_frame with (self := self) in E3, E4 by reflexivity.
  match goal with
  | |- context [accept6 ?o ?n ?c ?s1] => finish_accept accept6_cases o n c s1
  end.
Qed.

Lemma simplex_classified maxiter self : classified (Simplex maxiter) self.
Proof.
  unfold classified, run, simplex. open_method.
  split_result.
  rewrite chi2_frame with (self := self) in E3, E4 by reflexivity.
  match goal with
  | |- context [accept6 ?o ?n ?c ?s1] => finish_accept accept6_cases o n c s1
  end.
Qed.

Lemma anneal_classified maxiter self : classified (Anneal maxiter) self.
Proof.
  unfold classified, run, anneal. open_method.
  split_result.
  rewrite chi2_None in E3.
  rewrite chi2_frame with (self := self) in E3, E4 by reflexivity.
  match goal with
  | |- context [accept6 ?o ?n ?c ?s1] => finish_accept accept6_cases o n c s1
  end.
Qed.

Lemma refine2_classified maxiter fix_ self :
  classified (Refine2 maxiter fix_) self.
Proof.
  unfold classified, run, refine2. open_method.
  split_result.
  destruct a as [newParam|]; [injection E1 as -> | discriminate E1].
  rewrite chi2_None in E0.
  rewrite chi2_frame with (self := self) in E0, E2 by reflexivity.
  match goal with
  | |- context [accept6 ?o ?n ?c ?s1] => finish_accept accept6_cases o n c s1
  end.
Qed.

Lemma refine2_wavelength_classified maxiter fix_ self :
  classified (Refine2_wavelength maxiter fix_) self.
Proof.
  unfold classified, run, refine2_wavelength. open_method.
  change (update_last (fun x : R => 1e10 * x)
            (map (getattr (set_param self (NdArray (pose7 self)))) d7))
    with (pose self ++ [1e10 * wavelength self]).
  set (self1 := set_param (set_param self (NdArray (pose7 self)))
                  (NdArray (pose self ++ [1e10 * wavelength self]))).
  change (chi2_wavelength None self1)
    with (chi2_wavelength_on self1 (pose self ++ [1e10 * wavelength self]), self1).
  split_result.
  destruct a as [newParam|]; [injection E1 as -> | discriminate E1].
  match goal with
  | |- context [chi2_wavelength (Some ?p) self1] =>
      change (chi2_wavelength (Some p) self1)
        with (chi2_wavelength_on self1 p, self1)
  end.
  cbv beta iota.
  split_result.
  rewrite chi2_wavelength_on_frame with (self := self) in E0, E1 by reflexivity.
  match goal with
  | |- context [accept7 ?o ?n ?c ?s1] => finish_accept accept7_cases o n c s1
  end.
Qed.

Lemma roca_classified self : classified Roca self.
Proof.
  unfold classified, run, roca. open_method.
  split_result.
  right.
  match goal with
  | Hn : chi2 self (Some ?c) = Ok ?n |- context [fl_ltb ?n ?o] =>
      exists c, o, n
  end.
  split; [assumption | split; [assumption |]].
  match goal with
  | |- context [fl_ltb ?n ?o] =>
      destruct (fl_ltb n o); [right | left; split; reflexivity]
  end.
  split; [reflexivity|].
  right.
  match goal with
  | |- context [PyList ?c] =>
      destruct c as [|a' [|b [|c' [|d [|e [|f [|g t]]]]]]]
  end.
  all: try (right; split; [simpl; lia | reflexivity]).
  left; split; reflexivity.
Qed.

Lemma run_classified (s : strategy) (self : GeometryRefinement) :
  classified s self.
Proof.
  destruct s.
  - apply refine1_classified.
  - apply refine2_classified.
  - apply refine2_wavelength_classified.
  - apply simplex_classified.
  - apply anneal_classified.
  - apply roca_classified.
Qed.

(** The objective of a strategy reads neither [self.param] nor any field a
    commit writes. *)
Lemma objective_entry s self p :
  objective s (entry s self) p = objective s self p.
Proof. destruct s; reflexivity. Qed.

Lemma objective_committed s self cand p :
  objective s (committed s self cand) p = objective s self p.
Proof. destruct s; reflexivity. Qed.

Lemma objective_param_only s self cand p :
  objective s (param_only s self cand) p = objective s self p.
Proof. destruct s; reflexivity. Qed.

Lemma param_entry s self : param (entry s self) = snapshot s self.
Proof. destruct s; reflexivity. Qed.

Lemma vec_param_committed s self cand :
  vec (param (committed s self cand)) = cand.
Proof. destruct s; reflexivity. Qed.

Lemma vec_param_only s self cand : vec (param (param_only s self cand)) = cand.
Proof. destruct s; reflexivity. Qed.

(** The comparison every strategy makes.  The call either leaves the object
    as it was on entry (the pose fields untouched, [self.param] holding
    [snapshot]), or it has committed a candidate whose chi-squared is
    strictly lower than that of [snapshot] (to [self.param] and the pose
    fields; to [self.param] alone if the candidate has the wrong length and
    unpacking raises).  For the five minimizer strategies [snapshot] is the
    pose on entry.  For [roca] it is [self.param] as found, which the pose
    on entry need not equal: there the comparison says nothing about the
    pose. *)
Lemma commit_only_if_strictly_lower (s : strategy) (self : GeometryRefinement) :
  let self' := snd (run s self) in
  (self' = entry s self
   \/ exists cand old new,
        objective s self (vec (snapshot s self)) = Ok old /\
        objective s self cand = Ok new /\
        fl_ltb new old = true /\
        (self' = committed s self cand
         \/ (length cand <> arity s /\ self' = param_only s self cand)))
  /\ (forall old,
        objective s self (vec (snapshot s self)) = Ok old ->
        exists post,
          objective s self' (vec (param self')) = Ok post /\
          (post = old \/ fl_ltb post old = true)).
Proof.
  cbv zeta.
  assert (Hret : forall old,
             objective s self (vec (snapshot s self)) = Ok old ->
             exists post,
               objective s (entry s self) (vec (param (entry s self))) = Ok post /\
               (post = old \/ fl_ltb post old = true)).
  { intros old Hold. exists old.
    rewrite objective_entry, param_entry. auto. }
  destruct (run_classified s self) as [[e H]|(cand & old & new & Hold & Hnew & H)].
  - rewrite H; cbn [snd]. split; [left; reflexivity | exact Hret].
  - destruct H as [[Hlt H]|[Hlt [[e H]|[[Hl H]|[Hl H]]]]];
      rewrite H; cbn [snd].
    + split; [left; reflexivity | exact Hret].
    + split; [left; reflexivity | exact Hret].
    + split.
      * right; exists cand, old, new; auto.
      * intros old' Hold'. exists new.
        rewrite objective_committed, vec_param_committed.
        split; [assumption|]. right; congruence.
    + split.
      * right; exists cand, old, new; auto 6.
      * intros old' Hold'. exists new.
        rewrite objective_param_only, vec_param_only.
        split; [assumption|]. right; congruence.
Qed.

(** When no vector has a strictly lower chi-squared than the snapshot, a
    call that does not raise hands back the snapshot's chi-squared ([roca]:
    nothing) and leaves the object as on entry. *)
Lemma at_optimum_nothing_changes (s : strategy) (self : GeometryRefinement)
    (old : fl) :
  objective s self (vec (snapshot s self)) = Ok old ->
  (forall p new, objective s self p = Ok new -> fl_ltb new old = false) ->
  (exists e, run s self = (Raise e, entry s self))
  \/ run s self = (returned s old, entry s self).
Proof.
  intros Hold Hopt.
  destruct (run_classified s self) as [[e H]|(cand & old' & new & Hold' & Hnew & H)].
  - left; exists e; exact H.
  - assert (old' = old) by congruence; subst old'.
    specialize (Hopt cand new Hnew).
    destruct H as [[_ H]|[Hlt _]]; [right; exact H | congruence].
Qed.

(** A minimizer strategy that returns, returns the chi-squared of the vector
    it decided for: the candidate's when strictly lower, the snapshot's
    otherwise. *)
Lemma minimizer_returns_better (s : strategy) (self self' : GeometryRefinement)
    (v : pyval) :
  s <> Roca ->
  run s self = (Ok v, self') ->
  exists cand old new,
    objective s self (vec (snapshot s self)) = Ok old /\
    objective s self cand = Ok new /\
    v = PyFloat (if fl_ltb new old then new else old).
Proof.
  intros Hs Hrun.
  destruct (run_classified s self) as [[e H]|(cand & old & new & Hold & Hnew & H)].
  - congruence.
  - exists cand, old, new; split; [assumption | split; [assumption|]].
    destruct H as [[Hlt H]|[Hlt [[e H]|[[Hl H]|[Hl H]]]]];
      rewrite H in Hrun; rewrite Hlt;
      try discriminate Hrun;
      destruct s; try congruence; cbn [returned] in Hrun; congruence.
Qed.

(** C3.  [roca] never returns a chi-squared: a call that does not raise
    returns [None], whatever the decision was. *)
Theorem roca_returns_None (self : GeometryRefinement) :
  (exists e, fst (run Roca self) = Raise e) \/ fst (run Roca self) = Ok PyNone.
Proof.
  destruct (roca_classified self) as [[e H]|(cand & old & new & _ & _ & H)].
  - left; exists e; rewrite H; reflexivity.
  - destruct H as [[_ H]|[_ [[e H]|[[_ H]|[_ H]]]]]; rewrite H; cbn [fst returned].
    + right; reflexivity.
    + left; exists e; reflexivity.
    + right; reflexivity.
    + left; exists ValueError; reflexivity.
Qed.

(** C2.  [roca] with a candidate that is not strictly better: the object is
    left exactly as it was, but the call returns [None], not the chi-squared
    [old] it compared against. *)
Theorem roca_non_improving_returns_None (self : GeometryRefinement)
    (tmpf : list (list R)) (cand : list R) (old new : fl) :
  roca_input (data self) = Ok tmpf ->
  roca_stdout self
    (ROCA tmpf [pixel1 self; pixel2 self;
                poni1 self / pixel1 self; poni2 self / pixel2 self;
                dist self; rot1 self; rot2 self; rot3 self])
    (pose self) = Ok cand ->
  chi2 self (Some cand) = Ok new ->
  chi2 self (Some (vec (param self))) = Ok old ->
  fl_ltb new old = false ->
  run Roca self = (Ok PyNone, self) /\
  fst (run Roca self) <> Ok (PyFloat old).
Proof.
  intros Hin Hout Hnew Hold Hlt.
  assert (H : run Roca self = (Ok PyNone, self)).
  { unfold run, roca. open_method.
    rewrite Hin, Hout, chi2_None, Hold, Hnew, Hlt. reflexivity. }
  rewrite H; split; [reflexivity | discriminate].
Qed.

(** C4.  After a snapshot taken by [refine1], [refine2] or [simplex],
    [self.param] is a numpy array of six entries, and [chi2_wavelength()]
    raises [AttributeError]: an array has no [append]. *)
Theorem chi2_wavelength_ndarray6_raises (self : GeometryRefinement)
    (a b c d e f : R) :
  fst (chi2_wavelength None (set_param self (NdArray [a; b; c; d; e; f])))
  = Raise AttributeError.
Proof. reflexivity. Qed.

(** On a list of six entries the call goes through, and extends
    [self.param] itself by [1e10 * self.wavelength]. *)
Lemma chi2_wavelength_list6 (self : GeometryRefinement) (l : list R) :
  param self = PyList l -> length l = 6%nat ->
  let l' := l ++ [1e10 * wavelength self] in
  chi2_wavelength None self
  = (chi2_wavelength_on self l', set_param self (PyList l')).
Proof.
  intros Hp Hl. unfold chi2_wavelength. rewrite Hp, Hl. cbn [Nat.eqb].
  reflexivity.
Qed.

(** A call of [refine1] that returns leaves a six-entry array behind. *)
Lemma refine1_leaves_ndarray6 (self self' : GeometryRefinement) (v : pyval) :
  run Refine1 self = (Ok v, self') ->
  fst (chi2_wavelength None self') = Raise AttributeError.
Proof.
  intros Hrun.
  destruct (refine1_classified self) as [[e H]|(cand & old & new & _ & _ & H)].
  - unfold run in *; congruence.
  - destruct H as [[_ H]|[_ [[e H]|[[Hl H]|[_ H]]]]];
      unfold run in *; rewrite H in Hrun; try discriminate Hrun;
      injection Hrun as _ <-.
    + reflexivity.
    + cbn [arity] in Hl.
      unfold chi2_wavelength, committed.
      cbn [param set_pose set_param]. rewrite Hl. reflexivity.
Qed.

(** C6.  With a minimizer that hands its start vector back,
    [refine2_wavelength] commits nothing: the candidate's chi-squared equals
    the snapshot's, so the object, and with it the wavelength, is as on entry.
    In the arithmetic of the model the two rescalings cancel as well. *)
Theorem refine2_wavelength_noop_keeps_wavelength
    (Hnoop : forall f x0 n b, fmin_slsqp f x0 n b = Ok x0)
    (maxiter : nat) (fix_ : list string) (self : GeometryRefinement) :
  wavelength (snd (refine2_wavelength maxiter fix_ self)) = wavelength self /\
  1e-10 * (1e10 * wavelength self) = wavelength self.
Proof.
  split; [| lra].
  unfold refine2_wavelength. open_method.
  change (update_last (fun x : R => 1e10 * x)
            (map (getattr (set_param self (NdArray (pose7 self)))) d7))
    with (pose self ++ [1e10 * wavelength self]).
  set (self1 := set_param (set_param self (NdArray (pose7 self)))
                  (NdArray (pose self ++ [1e10 * wavelength self]))).
  change (chi2_wavelength None self1)
    with (chi2_wavelength_on self1 (pose self ++ [1e10 * wavelength self]), self1).
  unfold refine2_wavelength_minimize.
  destruct (ncols (data self1) =? 3)%nat;
    [| destruct (ncols (data self1) =? 4)%nat ].
  all: repeat match goal with
         | |- context [rbind ?x _] =>
             match x with
             | col _ _ => destruct x; cbn [rbind]; [| reflexivity]
             | fmin_slsqp _ _ _ _ => rewrite Hnoop; cbn [rbind]
             end
         end.
  all: cbv beta iota.
  all: try (destruct (chi2_wavelength_on self1 _) as [old|e] eqn:E;
            [| reflexivity]; cbn [local vec param self1 set_param];
            unfold chi2_wavelength; cbv beta iota;
            fold self1; rewrite E; unfold accept7;
            rewrite fl_ltb_irrefl; reflexivity).
  destruct (chi2_wavelength_on self1 _); reflexivity.
Qed.

(** C8.  With a column count that is neither 3 nor 4 no objective is
    selected and no minimizer runs: [refine2] and [refine2_wavelength] raise
    (reading the unbound [newParam], unless [chi2] has raised before), and
    the seven pose fields are untouched. *)
Theorem bounded_strategies_reject_other_shapes (maxiter : nat)
    (fix_ : list string) (self : GeometryRefinement) :
  ncols (data self) <> 3%nat ->
  ncols (data self) <> 4%nat ->
  ((exists e, fst (refine2 maxiter fix_ self) = Raise e) /\
   pose7 (snd (refine2 maxiter fix_ self)) = pose7 self)
  /\
  ((exists e, fst (refine2_wavelength maxiter fix_ self) = Raise e) /\
   pose7 (snd (refine2_wavelength maxiter fix_ self)) = pose7 self).
Proof.
  intros H3 H4.
  apply Nat.eqb_neq in H3, H4.
  split.
  - unfold refine2, refine2_minimize. open_method. rewrite H3, H4.
    destruct (chi2 _ None) as [old|e]; cbn [local fst snd];
      (split; [eexists; reflexivity | reflexivity]).
  - unfold refine2_wavelength, refine2_wavelength_minimize. open_method.
    rewrite H3, H4.
    change (update_last (fun x : R => 1e10 * x)
              (map (getattr (set_param self (NdArray (pose7 self)))) d7))
      with (pose self ++ [1e10 * wavelength self]).
    set (self1 := set_param (set_param self (NdArray (pose7 self)))
                    (NdArray (pose self ++ [1e10 * wavelength self]))).
    change (chi2_wavelength None self1)
      with (chi2_wavelength_on self1 (pose self ++ [1e10 * wavelength self]), self1).
    destruct (chi2_wavelength_on self1 _) as [old|e]; cbn [local fst snd];
      (split; [eexists; reflexivity | reflexivity]).
Qed.

(** The exception is the unbound local whenever [chi2] itself succeeds. *)
Lemma refine2_unbound_local (maxiter : nat) (fix_ : list string)
    (self : GeometryRefinement) (old : fl) :
  ncols (data self) <> 3%nat ->
  ncols (data self) <> 4%nat ->
  chi2 self (Some (pose self)) = Ok old ->
  refine2 maxiter fix_ self
  = (Raise UnboundLocalError, set_param self (NdArray (pose self))).
Proof.
  intros H3 H4 Hold.
  apply Nat.eqb_neq in H3, H4.
  unfold refine2, refine2_minimize. open_method. rewrite H3, H4.
  rewrite chi2_None.
  rewrite chi2_frame with (self := self) by reflexivity.
  cbn [vec param set_param].
  change (map (getattr self) d6) with (pose self).
  rewrite Hold. reflexivity.
Qed.

(** ** Bounds *)

Lemma tolerance_window_degenerate (value : R) :
  tolerance_window value 0 = (- (value / 100) ^ 2, (value / 100) ^ 2).
Proof.
  unfold tolerance_window.
  destruct (Rgt_dec (Rabs 0) ((value / 100) ^ 2)) as [H|H]; [| reflexivity].
  exfalso. rewrite Rabs_R0 in H.
  assert (0 <= (value / 100) ^ 2) by (apply pow2_ge_0). lra.
Qed.

(** C7, as amended.  With [poni1 = 0], [set_tolerance(value)] sets the
    bounds of [poni1] to [-(value / 100.) ** 2] and [(value / 100.) ** 2]:
    the square of the fraction, not the fraction.  At [value = 10] the
    double so computed is [0.010000000000000002], the double next above
    [0.01]. *)
Theorem set_tolerance_degenerate_poni1_square (self : GeometryRefinement) :
  poni1 self = 0 ->
  (forall value,
     let b := bounds (snd (set_tolerance value self)) in
     _poni1_min b = - (value / 100) ^ 2 /\ _poni1_max b = (value / 100) ^ 2)
  /\ tolerance_window_b64 10 0
     = (-0.010000000000000002, 0.010000000000000002)%float
  /\ next_up 0.01 = 0.010000000000000002%float.
Proof.
  intros Hp. split; [| split; reflexivity].
  intros value. cbn. rewrite Hp, tolerance_window_degenerate.
  cbn [fst snd]. split; reflexivity.
Qed.

(** C7, as stated.  On doubles the bounds that [set_tolerance(10)] computes
    at [poni1 = 0] are not (-0.01, 0.01). *)
Lemma set_tolerance_degenerate_poni1_not_a_hundredth :
  tolerance_window_b64 10 0 <> (-0.01, 0.01)%float.
Proof.
  intros H.
  apply (f_equal (fun w => (snd w =? 0.01)%float)) in H.
  vm_compute in H. discriminate H.
Qed.

(** C10.  [set_tolerance] sets the bounds of [dist] and [wavelength] by
    linear scaling of the current value whatever that value is; with
    [dist = 0] both distance bounds are 0.  The fallback window belongs to
    the five other fields only. *)
Theorem set_tolerance_dist_wavelength_linear (value : R)
    (self : GeometryRefinement) :
  let b := bounds (snd (set_tolerance value self)) in
  let low := 1.0 - value / 100 in
  let hi := 1.0 + value / 100 in
  (_dist_min b = low * dist self /\ _dist_max b = hi * dist self) /\
  (_wavelength_min b = low * wavelength self /\
   _wavelength_max b = hi * wavelength self) /\
  (dist self = 0 -> _dist_min b = 0 /\ _dist_max b = 0) /\
  (_poni1_min b, _poni1_max b) = tolerance_window value (poni1 self) /\
  (_poni2_min b, _poni2_max b) = tolerance_window value (poni2 self) /\
  (_rot1_min b, _rot1_max b) = tolerance_window value (rot1 self) /\
  (_rot2_min b, _rot2_max b) = tolerance_window value (rot2 self) /\
  (_rot3_min b, _rot3_max b) = tolerance_window value (rot3 self).
Proof.
  cbv zeta. unfold set_tolerance, modify. cbn [snd bounds set_bounds].
  cbn [_dist_min _dist_max _wavelength_min _wavelength_max
       _poni1_min _poni1_max _poni2_min _poni2_max
       _rot1_min _rot1_max _rot2_min _rot2_max _rot3_min _rot3_max].
  split; [split; reflexivity|].
  split; [split; reflexivity|].
  split; [intros Hd; rewrite Hd; split; lra|].
  repeat split; symmetry; apply surjective_pairing.
Qed.

(** ** The initial centre *)

Lemma insert_row_perm (r : list R) (l : list (list R)) :
  Permutation (insert_row r l) (r :: l).
Proof.
  induction l as [|x t IH]; cbn [insert_row].
  - apply Permutation_refl.
  - destruct (Rle_dec (nth 2 r 0) (nth 2 x 0)).
    + apply Permutation_refl.
    + eapply perm_trans; [apply perm_skip, IH | apply perm_swap].
Qed.

Lemma argsort_rows_perm (l : list (list R)) : Permutation (argsort_rows l) l.
Proof.
  induction l as [|r t IH]; cbn [argsort_rows].
  - apply perm_nil.
  - eapply perm_trans; [apply insert_row_perm | apply perm_skip, IH].
Qed.

Lemma filter_perm {A} (f : A -> bool) (l l' : list A) :
  Permutation l l' -> Permutation (filter f l) (filter f l').
Proof.
  induction 1 as [|x l l' _ IH|x y l|l l' l'' _ IH1 _ IH2]; cbn [filter].
  - apply perm_nil.
  - destruct (f x); [apply perm_skip|]; exact IH.
  - destruct (f x), (f y);
      try apply perm_swap; apply Permutation_refl.
  - eapply perm_trans; eassumption.
Qed.

Lemma fold_Rmin_least (t : list R) (x m : R) :
  In m (x :: t) -> Forall (Rle m) (x :: t) -> fold_left Rmin t x = m.
Proof.
  revert x. induction t as [|y t IH]; intros x Hin Hle.
  - destruct Hin as [->|[]]. reflexivity.
  - cbn [fold_left]. apply IH.
    + inversion Hle as [|? ? Hx Hrest]; subst.
      inversion Hrest as [|? ? Hy _]; subst.
      destruct Hin as [->|[->|Hin]].
      * left. apply Rmin_left; assumption.
      * left. apply Rmin_right; assumption.
      * right; assumption.
    + inversion Hle as [|? ? Hx Hrest]; subst.
      inversion Hrest as [|? ? Hy Ht]; subst.
      constructor; [| assumption].
      apply Rmin_glb; assumption.
Qed.

Lemma np_min_least (l : list R) (m : R) :
  In m l -> Forall (Rle m) l -> np_min l = Ok m.
Proof.
  destruct l as [|x t]; [intros [] |].
  intros Hin Hle. cbn [np_min]. f_equal.
  apply fold_Rmin_least; assumption.
Qed.

Lemma np_min_argsort (m : R) (l : list (list R)) :
  is_tth_min m l ->
  np_min (map (fun r => nth 2 r 0) (argsort_rows l)) = Ok m.
Proof.
  intros [Hin Hle].
  pose proof (argsort_rows_perm l) as Hp.
  apply np_min_least.
  - eapply Permutation_in; [| exact Hin].
    apply Permutation_map, Permutation_sym, Hp.
  - apply Forall_forall. intros x Hx.
    apply in_map_iff in Hx. destruct Hx as (r & <- & Hr).
    rewrite Forall_forall in Hle. apply Hle.
    eapply Permutation_in; [exact Hp | exact Hr].
Qed.

Lemma innermost_argsort (m : R) (l : list (list R)) (row : list R) :
  innermost m l = [row] -> innermost m (argsort_rows l) = [row].
Proof.
  intros H. unfold innermost in *.
  apply Permutation_length_1_inv.
  rewrite <- H. apply filter_perm, Permutation_sym, argsort_rows_perm.
Qed.

(** C9.  [guess_poni] raises on a dataset without rows and changes nothing;
    when the innermost ring (column 2 below its minimum plus 1e-6) is a
    single row, the two centre fields become the metric coordinates of that
    row's pixel position. *)
Theorem guess_poni_empty_and_single (self : GeometryRefinement) :
  (rows (data self) = [] -> exists e, guess_poni self = (Raise e, self))
  /\
  (forall m row,
     (2 < ncols (data self))%nat ->
     is_tth_min m (rows (data self)) ->
     innermost m (rows (data self)) = [row] ->
     let p := calc_cartesian_positions (nth 0 row 0) (nth 1 row 0) in
     guess_poni self = (Ok tt, set_poni self (fst p) (snd p))).
Proof.
  split.
  - intros Hrows. unfold guess_poni. open_method. rewrite Hrows.
    destruct (col 2 (data self)); cbn [argsort_rows map np_min];
      eexists; reflexivity.
  - intros m row Hc Hmin Hring p.
    unfold guess_poni. open_method.
    unfold col. apply Nat.ltb_lt in Hc. rewrite Hc.
    rewrite (np_min_argsort m _ Hmin).
    fold (innermost m (argsort_rows (rows (data self)))).
    rewrite (innermost_argsort m _ row Hring).
    cbn [map map2 fst snd np_sum fold_right length INR].
    fold p. f_equal. unfold set_poni. f_equal; lra.
Qed.

(** * Further properties *)

(** ** The windows of [set_tolerance] *)

Lemma tolerance_window_ordered (value x : R) :
  ordered (tolerance_window value x).
Proof.
  unfold ordered, tolerance_window.
  destruct (Rgt_dec (Rabs x) ((value / 100) ^ 2)); cbn [fst snd].
  - eapply Rle_trans; [apply Rmin_l | apply Rmax_l].
  - pose proof (pow2_ge_0 (value / 100)). lra.
Qed.

Lemma tolerance_window_contains (value x : R) :
  0 <= value -> within x (tolerance_window value x).
Proof.
  intros Hv. unfold within, tolerance_window.
  destruct (Rgt_dec (Rabs x) ((value / 100) ^ 2)) as [H|H]; cbn [fst snd].
  - unfold Rmin, Rmax.
    destruct (Rle_dec ((1.0 - value / 100) * x) ((1.0 + value / 100) * x));
      split; nra.
  - apply Rnot_gt_le in H. unfold Rabs in H.
    destruct (Rcase_abs x); lra.
Qed.

Lemma tolerance_window_zero (x : R) : tolerance_window 0 x = (x, x).
Proof.
  unfold tolerance_window.
  replace ((0 / 100) ^ 2) with 0 by lra.
  destruct (Rgt_dec (Rabs x) 0) as [H|H].
  - rewrite Rmin_left, Rmax_left by lra. f_equal; lra.
  - apply Rnot_gt_le in H. pose proof (Rabs_pos x).
    assert (Hx : x = 0).
    { destruct (Req_dec x 0) as [E|E]; [exact E|].
      apply Rabs_pos_lt in E. lra. }
    rewrite Hx. f_equal; lra.
Qed.

(** X1.  Whatever the tolerance, negative or above 100 included, the
    windows [set_tolerance] gives to [poni1], [poni2], [rot1], [rot2] and
    [rot3] are never inverted. *)
Theorem set_tolerance_windows_ordered (value : R) (self : GeometryRefinement) :
  let b := bounds (snd (set_tolerance value self)) in
  _poni1_min b <= _poni1_max b /\ _poni2_min b <= _poni2_max b /\
  _rot1_min b <= _rot1_max b /\ _rot2_min b <= _rot2_max b /\
  _rot3_min b <= _rot3_max b.
Proof.
  cbv zeta. unfold set_tolerance, modify. cbn [snd bounds set_bounds].
  cbn [_poni1_min _poni1_max _poni2_min _poni2_max
       _rot1_min _rot1_max _rot2_min _rot2_max _rot3_min _rot3_max].
  repeat split; apply tolerance_window_ordered.
Qed.

(** X2.  With a tolerance that is not negative, the current value of each
    of the five fields lies inside the window it is given, and the current
    distance and wavelength lie inside theirs as soon as they are not
    negative: the start vector of a bounded strategy is feasible. *)
Theorem set_tolerance_keeps_pose_feasible (value : R)
    (self : GeometryRefinement) :
  0 <= value ->
  let b := bounds (snd (set_tolerance value self)) in
  (_poni1_min b <= poni1 self <= _poni1_max b /\
   _poni2_min b <= poni2 self <= _poni2_max b /\
   _rot1_min b <= rot1 self <= _rot1_max b /\
   _rot2_min b <= rot2 self <= _rot2_max b /\
   _rot3_min b <= rot3 self <= _rot3_max b) /\
  (0 <= dist self -> _dist_min b <= dist self <= _dist_max b) /\
  (0 <= wavelength self ->
   _wavelength_min b <= wavelength self <= _wavelength_max b).
Proof.
  intros Hv. cbv zeta. unfold set_tolerance, modify.
  cbn [snd bounds set_bounds].
  cbn [_dist_min _dist_max _wavelength_min _wavelength_max
       _poni1_min _poni1_max _poni2_min _poni2_max
       _rot1_min _rot1_max _rot2_min _rot2_max _rot3_min _rot3_max].
  split; [| split; intros Hx; split; nra].
  repeat split;
    first [apply (proj1 (tolerance_window_contains value _ Hv))
          | apply (proj2 (tolerance_window_contains value _ Hv))].
Qed.


(** X4.  Tolerance 0 pins every parameter: all fourteen bounds become the
    current value of their field. *)
Theorem set_tolerance_zero_pins (self : GeometryRefinement) :
  let b := bounds (snd (set_tolerance 0 self)) in
  forall i, getattr_min (set_bounds self b) i = getattr self i /\
            getattr_max (set_bounds self b) i = getattr self i.
Proof.
  cbv zeta. unfold set_tolerance, modify. cbn [snd bounds set_bounds].
  intros i.
  destruct i; unfold getattr_min, getattr_max, getattr;
    cbn [bounds set_bounds _dist_min _dist_max _wavelength_min
         _wavelength_max _poni1_min _poni1_max _poni2_min _poni2_max
         _rot1_min _rot1_max _rot2_min _rot2_max _rot3_min _rot3_max];
    rewrite ?tolerance_window_zero; cbn [fst snd]; split; lra.
Qed.

(** ** Ring indices and the reference angle *)

Lemma Rtrunc_IZR (z : Z) : Rtrunc (IZR z) = z.
Proof.
  unfold Rtrunc. destruct (Rle_dec 0 (IZR z)) as [_|_].
  - symmetry. apply Int_part_spec. lra.
  - rewrite <- opp_IZR.
    rewrite <- (Int_part_spec (IZR (- z)) (- z)%Z) by lra. lia.
Qed.

Lemma int32_of_range (x : R) :
  (-2147483648 <= int32_of x < 2147483648)%Z.
Proof.
  unfold int32_of.
  destruct ((-2147483648 <=? Rtrunc x) && (Rtrunc x <? 2147483648))%Z eqn:E.
  - apply andb_true_iff in E. destruct E as [E1 E2].
    apply Z.leb_le in E1. apply Z.ltb_lt in E2. lia.
  - lia.
Qed.

Lemma int32_of_IZR (z : Z) :
  (-2147483648 <= z < 2147483648)%Z -> int32_of (IZR z) = z.
Proof.
  intros [H1 H2]. unfold int32_of. rewrite Rtrunc_IZR.
  apply Z.leb_le in H1. apply Z.ltb_lt in H2. rewrite H1, H2. reflexivity.
Qed.

Lemma int32_of_astype (a : list R) :
  map int32_of (astype_int32 a) = map int32_of a.
Proof.
  unfold astype_int32. rewrite map_map. apply map_ext.
  intros x. apply int32_of_IZR, int32_of_range.
Qed.

(** Converting the ring column to int32 beforehand, as the bounded
    strategies do, changes nothing. *)
Lemma calc_2th_astype (self : GeometryRefinement) (rings : list R) (lambda : R) :
  calc_2th self (astype_int32 rings) lambda = calc_2th self rings lambda.
Proof. unfold calc_2th. rewrite int32_of_astype. reflexivity. Qed.

Lemma np_getitem_in_range (a : list R) (i : Z) :
  (- Z.of_nat (length a) <= i < Z.of_nat (length a))%Z ->
  exists x, np_getitem a i = Ok x.
Proof.
  intros Hi. unfold np_getitem.
  set (n := Z.of_nat (length a)) in *.
  set (j := if (i <? 0)%Z then (i + n)%Z else i).
  assert (Hj : (0 <= j < n)%Z).
  { unfold j. destruct (Z.ltb_spec i 0); lia. }
  destruct Hj as [Hj1 Hj2].
  pose proof Hj1 as Hj1'. pose proof Hj2 as Hj2'.
  apply Z.leb_le in Hj1'. apply Z.ltb_lt in Hj2'. rewrite Hj1', Hj2'.
  cbn [andb]. unfold getitem.
  destruct (nth_error a (Z.to_nat j)) as [x|] eqn:E; [eauto|].
  apply nth_error_None in E. unfold n in *. lia.
Qed.

Lemma np_getitem_out_of_range (a : list R) (i : Z) :
  (i < - Z.of_nat (length a) \/ Z.of_nat (length a) <= i)%Z ->
  np_getitem a i = Raise IndexError.
Proof.
  intros Hi. unfold np_getitem.
  set (n := Z.of_nat (length a)) in *.
  set (j := if (i <? 0)%Z then (i + n)%Z else i).
  assert (Hj : (j < 0 \/ n <= j)%Z).
  { unfold j. destruct (Z.ltb_spec i 0); lia. }
  destruct ((0 <=? j) && (j <? n))%Z eqn:E; [| reflexivity].
  apply andb_true_iff in E. destruct E as [E1 E2].
  apply Z.leb_le in E1. apply Z.ltb_lt in E2. lia.
Qed.

Lemma np_getitem_raises (a : list R) (i : Z) (e : exn) :
  np_getitem a i = Raise e -> e = IndexError.
Proof.
  unfold np_getitem, getitem.
  destruct (_ && _)%bool; [| congruence].
  destruct (nth_error _ _); congruence.
Qed.

Lemma np_take_raises (a : list R) (idx : list Z) (e : exn) :
  np_take a idx = Raise e -> e = IndexError.
Proof.
  induction idx as [|i rest IH]; cbn [np_take]; [discriminate|].
  destruct (np_getitem a i) as [x|e'] eqn:E; cbn [rbind].
  - destruct (np_take a rest) as [xs|e'']; cbn [rbind]; [discriminate|].
    intros H; apply IH; congruence.
  - intros H. apply (np_getitem_raises a i). congruence.
Qed.

Lemma np_take_ok (a : list R) (idx : list Z) (l : list R) :
  np_take a idx = Ok l ->
  length l = length idx /\
  Forall (fun i => - Z.of_nat (length a) <= i < Z.of_nat (length a))%Z idx.
Proof.
  revert l. induction idx as [|i rest IH]; cbn [np_take]; intros l H.
  - injection H as <-. split; [reflexivity | constructor].
  - destruct (np_getitem a i) as [x|e] eqn:E; cbn [rbind] in H;
      [| discriminate].
    destruct (np_take a rest) as [xs|e]; cbn [rbind] in H; [| discriminate].
    injection H as <-. destruct (IH xs eq_refl) as [Hl Hf].
    split; [cbn; lia|]. constructor; [| exact Hf].
    destruct (Z_lt_ge_dec i (- Z.of_nat (length a))) as [Hlo|Hlo];
      [rewrite np_getitem_out_of_range in E by lia; discriminate|].
    destruct (Z_lt_ge_dec i (Z.of_nat (length a))) as [Hhi|Hhi]; [lia|].
    rewrite np_getitem_out_of_range in E by lia; discriminate.
Qed.

Lemma np_take_in_range (a : list R) (idx : list Z) :
  Forall (fun i => - Z.of_nat (length a) <= i < Z.of_nat (length a))%Z idx ->
  exists l, np_take a idx = Ok l.
Proof.
  induction 1 as [|i rest Hi _ IH]; cbn [np_take]; [eauto|].
  destruct (np_getitem_in_range a i Hi) as [x ->].
  destruct IH as [xs ->]. cbn [rbind]. eauto.
Qed.

Lemma calc_2th_length (self : GeometryRefinement) (rings : list R)
    (lambda : R) (c : list fl) :
  calc_2th self rings lambda = Ok c -> length c = length rings.
Proof.
  unfold calc_2th.
  destruct (np_take (dSpacing self) (map int32_of rings)) as [ds|e] eqn:E;
    cbn [rbind]; [| discriminate].
  intros H; injection H as <-.
  apply np_take_ok in E. destruct E as [E _].
  rewrite length_map, E, length_map. reflexivity.
Qed.

(** X5.  Ring indices are looked up the numpy way.  When every index [z]
    satisfies [-n <= z < n], [n] the length of the d-spacing table, the
    reference angles come back, one per index (a negative index counts from
    the end and is not rejected); as soon as one index is outside, the call
    raises [IndexError]. *)
Theorem calc_2th_ring_lookup (self : GeometryRefinement) (zs : list Z)
    (lambda : R) :
  Forall (fun z => -2147483648 <= z < 2147483648)%Z zs ->
  let n := Z.of_nat (length (dSpacing self)) in
  (Forall (fun z => - n <= z < n)%Z zs ->
   exists c, calc_2th self (map IZR zs) lambda = Ok c /\
             length c = length zs)
  /\
  (Exists (fun z => z < - n \/ n <= z)%Z zs ->
   calc_2th self (map IZR zs) lambda = Raise IndexError).
Proof.
  intros H32 n.
  assert (Hz : map int32_of (map IZR zs) = zs).
  { rewrite map_map. rewrite <- (map_id zs) at 2.
    apply map_ext_in. intros z Hin. apply int32_of_IZR.
    rewrite Forall_forall in H32. apply H32, Hin. }
  split.
  - intros Hin. destruct (np_take_in_range (dSpacing self) zs Hin) as [ds E].
    unfold calc_2th. rewrite Hz, E. cbn [rbind]. eexists; split; [reflexivity|].
    apply np_take_ok in E. rewrite length_map. apply E.
  - intros Hout. unfold calc_2th. rewrite Hz.
    destruct (np_take (dSpacing self) zs) as [ds|e] eqn:E; cbn [rbind].
    + exfalso. apply np_take_ok in E. destruct E as [_ E].
      rewrite Forall_forall in E. apply Exists_exists in Hout.
      destruct Hout as (z & Hz1 & Hz2). specialize (E z Hz1).
      fold n in E. lia.
    + apply np_take_raises in E. rewrite E. reflexivity.
Qed.

(** With an empty table every lookup fails. *)
Lemma calc_2th_empty_table (self : GeometryRefinement) (r : R)
    (rings : list R) (lambda : R) :
  dSpacing self = [] -> calc_2th self (r :: rings) lambda = Raise IndexError.
Proof.
  intros Hd. unfold calc_2th. rewrite Hd. cbn [map np_take].
  rewrite np_getitem_out_of_range; [reflexivity|]. cbn. lia.
Qed.

(** ** The objectives *)

Lemma fl_sum_weighted_sqr_nonneg (w : list R) (r : list fl) (x : R) :
  Forall (Rle 0) w ->
  fl_sum (map2 fl_scale w (map fl_sqr r)) = Fin x -> 0 <= x.
Proof.
  intros Hw. revert r x.
  induction Hw as [|a w Ha _ IH]; intros r x; cbn [map2 fl_sum fold_right].
  - intros H; injection H as <-. lra.
  - destruct r as [|y r]; cbn [map map2 fold_right].
    + intros H; injection H as <-. lra.
    + fold (fl_sum (map2 fl_scale w (map fl_sqr r))).
      destruct y as [ry|]; cbn [fl_sqr fl_scale fl_add]; [| discriminate].
      destruct (fl_sum (map2 fl_scale w (map fl_sqr r))) as [t|] eqn:E;
        [| discriminate].
      intros H; injection H as <-.
      specialize (IH r t E). nra.
Qed.

Lemma fl_sum_sqr_nonneg (r : list fl) (x : R) :
  fl_sum (map fl_sqr r) = Fin x -> 0 <= x.
Proof.
  revert x. induction r as [|y r IH]; intros x; cbn [map fl_sum fold_right].
  - intros H; injection H as <-. lra.
  - fold (fl_sum (map fl_sqr r)).
    destruct y as [ry|]; cbn [fl_sqr fl_add]; [| discriminate].
    destruct (fl_sum (map fl_sqr r)) as [t|]; [| discriminate].
    intros H; injection H as <-. specialize (IH t eq_refl). nra.
Qed.

(** X6.  A chi-squared that is a number is never negative, under either
    objective family; the same holds for the weighted objectives when no
    weight is negative. *)
Theorem objectives_nonnegative (self : GeometryRefinement)
    (p d1 d2 rings w : list R) (x : R) :
  (residu2 self p d1 d2 rings = Ok (Fin x) -> 0 <= x) /\
  (residu2_wavelength self p d1 d2 rings = Ok (Fin x) -> 0 <= x) /\
  (Forall (Rle 0) w ->
   (residu2_weighted self p d1 d2 rings w = Ok (Fin x) -> 0 <= x) /\
   (residu2_wavelength_weighted self p d1 d2 rings w = Ok (Fin x) -> 0 <= x)).
Proof.
  unfold residu2, residu2_wavelength, residu2_weighted,
    residu2_wavelength_weighted.
  repeat split;
    match goal with
    | |- rbind ?r _ = _ -> _ =>
        destruct r as [res|e]; cbn [rbind]; [| discriminate];
        intros E; injection E as E
    end;
    eauto using fl_sum_sqr_nonneg, fl_sum_weighted_sqr_nonneg.
Qed.

Lemma length_map2 {A B C} (f : A -> B -> C) (a : list A) (b : list B) :
  length (map2 f a b) = Nat.min (length a) (length b).
Proof.
  revert b. induction a as [|x a IH]; intros [|y b]; cbn; auto.
Qed.

Lemma map2_unit_weights (w : list R) (l : list fl) :
  Forall (eq 1) w -> length w = length l -> map2 fl_scale w l = l.
Proof.
  intros Hw. revert l.
  induction Hw as [|a w Ha _ IH]; intros [|y l] Hl; cbn in *;
    try discriminate; [reflexivity|].
  subst a. f_equal; [| apply IH; lia].
  destruct y as [r|]; cbn; [| reflexivity]. f_equal. lra.
Qed.

Lemma residu1_length (self : GeometryRefinement) (p d1 d2 rings : list R)
    (r : list fl) :
  length d1 = length rings -> length d2 = length rings ->
  residu1 self p d1 d2 rings = Ok r -> length r = length rings.
Proof.
  intros H1 H2. unfold residu1, np_tth.
  destruct (calc_2th self rings (wavelength self)) as [c|e] eqn:E;
    cbn [rbind]; [| discriminate].
  intros H; injection H as <-.
  apply calc_2th_length in E.
  rewrite !length_map2. lia.
Qed.

Lemma residu1_wavelength_length (self : GeometryRefinement)
    (p d1 d2 rings : list R) (r : list fl) :
  length d1 = length rings -> length d2 = length rings ->
  residu1_wavelength self p d1 d2 rings = Ok r -> length r = length rings.
Proof.
  intros H1 H2. unfold residu1_wavelength, np_tth.
  destruct (getitem p 6) as [p6|e]; cbn [rbind]; [| discriminate].
  destruct (calc_2th self rings (p6 * 1e-10)) as [c|e] eqn:E;
    cbn [rbind]; [| discriminate].
  intros H; injection H as <-.
  apply calc_2th_length in E.
  rewrite !length_map2. lia.
Qed.

(** X7.  On columns of one length, a weight column of ones makes the
    weighted objectives equal to the unweighted ones: a four-column dataset
    with unit weights and its three-column counterpart give the bounded
    minimizer the same objective values. *)
Theorem unit_weights_change_nothing (self : GeometryRefinement)
    (p d1 d2 rings w : list R) :
  length d1 = length rings -> length d2 = length rings ->
  length w = length rings -> Forall (eq 1) w ->
  residu2_weighted self p d1 d2 rings w = residu2 self p d1 d2 rings /\
  residu2_wavelength_weighted self p d1 d2 rings w
  = residu2_wavelength self p d1 d2 rings.
Proof.
  intros H1 H2 Hw Hones.
  unfold residu2_weighted, residu2, residu2_wavelength_weighted,
    residu2_wavelength.
  split.
  - destruct (residu1 self p d1 d2 rings) as [r|e] eqn:E; cbn [rbind];
      [| reflexivity].
    apply residu1_length in E; trivial.
    rewrite map2_unit_weights; [reflexivity | assumption |].
    rewrite length_map. lia.
  - destruct (residu1_wavelength self p d1 d2 rings) as [r|e] eqn:E;
      cbn [rbind]; [| reflexivity].
    apply residu1_wavelength_length in E; trivial.
    rewrite map2_unit_weights; [reflexivity | assumption |].
    rewrite length_map. lia.
Qed.

Lemma map2_ext_all {A B C} (f g : A -> B -> C) (a : list A) (b : list B) :
  (forall x y, f x y = g x y) -> map2 f a b = map2 g a b.
Proof.
  intros H. revert b. induction a as [|x a IH]; intros [|y b]; cbn; trivial.
  rewrite H, IH. reflexivity.
Qed.

(** X8.  The two objective families differ only in where the wavelength
    comes from.  For a six-entry vector [p] and any seventh entry [w], the
    wavelength objective at [p] extended by [w] is the plain chi-squared at
    [p] of the same object with [self.wavelength] set to [w * 1e-10], the
    product line 176 forms, provided the forward model does not read a
    seventh entry. *)
Theorem chi2_wavelength_is_chi2_at_scaled_entry (self : GeometryRefinement)
    (p : list R) (w : R) :
  length p = 6%nat ->
  (forall a b, tth a b (p ++ [w]) = tth a b p) ->
  chi2_wavelength_on self (p ++ [w])
  = chi2 (set_wavelength self (w * 1e-10)) (Some p).
Proof.
  intros Hl Htth. unfold chi2_wavelength_on, chi2.
  cbn [data set_wavelength].
  destruct (col 0 (data self)) as [c0|e]; cbn [rbind]; [| reflexivity].
  destruct (col 1 (data self)) as [c1|e]; cbn [rbind]; [| reflexivity].
  destruct (col 2 (data self)) as [c2|e]; cbn [rbind]; [| reflexivity].
  unfold residu2_wavelength, residu2, residu1_wavelength, residu1.
  assert (Hg : getitem (p ++ [w]) 6 = Ok w).
  { unfold getitem. rewrite nth_error_app2 by lia.
    rewrite Hl. reflexivity. }
  rewrite Hg. cbn [rbind].
  rewrite calc_2th_astype.
  unfold np_tth.
  rewrite (map2_ext_all (fun a b => tth a b (p ++ [w]))
             (fun a b => tth a b p)) by (intros; apply Htth).
  reflexivity.
Qed.

(** ** The decision of a strategy *)

Lemma argmax_from_lt (l : list R) (best : R) (bi i : nat) :
  (bi < i)%nat -> (argmax_from best bi i l < i + length l)%nat.
Proof.
  revert best bi i. induction l as [|x t IH]; intros best bi i Hb;
    cbn [argmax_from length].
  - lia.
  - destruct (Rlt_dec best x).
    + specialize (IH x i (S i)). lia.
    + specialize (IH best bi (S i)). lia.
Qed.

Lemma getitem_lt {A} (a : list A) (i : nat) :
  (i < length a)%nat -> exists x, getitem a i = Ok x.
Proof.
  intros Hi. unfold getitem.
  destruct (nth_error a i) eqn:E; [eauto|].
  apply nth_error_None in E. lia.
Qed.

(** On vectors of the length of the name list the log line is inert. *)
Lemma log_maxdelta_same_length (d : list pname) (p q : list R) :
  d <> [] -> length p = length d -> length q = length d ->
  log_maxdelta d p q = Ok tt.
Proof.
  intros Hd Hp Hq. unfold log_maxdelta, np_sub.
  assert (E : (length p =? length q)%nat = true)
    by (apply Nat.eqb_eq; congruence).
  rewrite E. cbn [rbind].
  assert (Hl : length (map Rabs (map2 Rminus p q)) = length d).
  { rewrite length_map, length_map2. lia. }
  destruct (map Rabs (map2 Rminus p q)) as [|x t] eqn:El.
  - destruct d; [contradiction | discriminate].
  - cbn [np_argmax rbind].
    pose proof (argmax_from_lt t x 0 1 ltac:(lia)) as Hi.
    cbn [length] in Hl.
    destruct (getitem_lt d (argmax_from x 0 1 t)) as [? ->]; [lia|].
    destruct (getitem_lt p (argmax_from x 0 1 t)) as [? ->]; [lia|].
    destruct (getitem_lt q (argmax_from x 0 1 t)) as [? ->]; [lia|].
    reflexivity.
Qed.

Lemma accept6_decides (old new : fl) (cand : list R)
    (self : GeometryRefinement) :
  length (vec (param self)) = 6%nat -> length cand = 6%nat ->
  accept6 old new cand self
  = if fl_ltb new old
    then (Ok (PyFloat new),
          set_pose (set_param self (NdArray cand))
            (nth 0 cand 0) (nth 1 cand 0) (nth 2 cand 0)
            (nth 3 cand 0) (nth 4 cand 0) (nth 5 cand 0))
    else (Ok (PyFloat old), self).
Proof.
  intros Hp Hc. unfold accept6.
  destruct (fl_ltb new old); [| reflexivity].
  rewrite log_maxdelta_same_length by (trivial; discriminate).
  destruct cand as [|a [|b [|c [|d [|e [|f [|g t]]]]]]]; try discriminate.
  reflexivity.
Qed.

Lemma accept7_decides (old new : fl) (cand : list R)
    (self : GeometryRefinement) :
  length (vec (param self)) = 7%nat -> length cand = 7%nat ->
  accept7 old new cand self
  = if fl_ltb new old
    then (Ok (PyFloat new),
          set_wavelength
            (set_pose (set_param self (NdArray cand))
               (nth 0 cand 0) (nth 1 cand 0) (nth 2 cand 0)
               (nth 3 cand 0) (nth 4 cand 0) (nth 5 cand 0))
            (1e-10 * nth 6 cand 0))
    else (Ok (PyFloat old), self).
Proof.
  intros Hp Hc. unfold accept7.
  destruct (fl_ltb new old); [| reflexivity].
  rewrite log_maxdelta_same_length by (trivial; discriminate).
  destruct cand as [|a [|b [|c [|d [|e [|f [|g [|h t]]]]]]]]; try discriminate.
  reflexivity.
Qed.

(** Replace the chi-squared evaluated on the object after the snapshot by
    the one on the object before it. *)
Ltac chi2_on_entry :=
  repeat match goal with
    | |- context [chi2 (set_param ?s ?q) (Some ?p)] =>
        change (chi2 (set_param s q) (Some p)) with (chi2 s (Some p))
    end.

(** Destruct the [result]s that lead to the candidate, leaving the
    chi-squared evaluations in place. *)
Ltac split_ok :=
  repeat match goal with
    | |- context [match ?x with Ok _ => _ | Raise _ => _ end] =>
        match x with
        | chi2 _ _ => fail 1
        | chi2_wavelength_on _ _ => fail 1
        | _ => idtac
        end;
        destruct x eqn:?; cbn [rbind fst]; try (intros; discriminate)
    end.

Lemma refine1_decides self cand old new :
  candidate Refine1 self = Ok cand -> length cand = 6%nat ->
  chi2 self (Some (pose self)) = Ok old ->
  chi2 self (Some cand) = Ok new ->
  run Refine1 self
  = if fl_ltb new old then (Ok (PyFloat new), committed Refine1 self cand)
    else (Ok (PyFloat old), entry Refine1 self).
Proof.
  intros Hc Hl Hold Hnew. revert Hc.
  unfold candidate, run, refine1, rbind. open_method.
  cbn [entry snapshot].
  split_ok.
  intros H; injection H as <-.
  chi2_on_entry.
  rewrite Hold, Hnew, accept6_decides by trivial.
  destruct (fl_ltb new old); reflexivity.
Qed.

Lemma simplex_decides maxiter self cand old new :
  candidate (Simplex maxiter) self = Ok cand -> length cand = 6%nat ->
  chi2 self (Some (pose self)) = Ok old ->
  chi2 self (Some cand) = Ok new ->
  run (Simplex maxiter) self
  = if fl_ltb new old
    then (Ok (PyFloat new), committed (Simplex maxiter) self cand)
    else (Ok (PyFloat old), entry (Simplex maxiter) self).
Proof.
  intros Hc Hl Hold Hnew. revert Hc.
  unfold candidate, run, simplex, rbind. open_method.
  cbn [entry snapshot].
  split_ok.
  intros H; injection H as <-.
  chi2_on_entry.
  rewrite Hold, Hnew, accept6_decides by trivial.
  destruct (fl_ltb new old); reflexivity.
Qed.

Lemma anneal_decides maxiter self cand old new :
  candidate (Anneal maxiter) self = Ok cand -> length cand = 6%nat ->
  chi2 self (Some (pose self)) = Ok old ->
  chi2 self (Some cand) = Ok new ->
  run (Anneal maxiter) self
  = if fl_ltb new old
    then (Ok (PyFloat new), committed (Anneal maxiter) self cand)
    else (Ok (PyFloat old), entry (Anneal maxiter) self).
Proof.
  intros Hc Hl Hold Hnew. revert Hc.
  unfold candidate, run, anneal, rbind. open_method.
  cbn [entry snapshot].
  change (getattr_min (set_param self (PyList (pose self))))
    with (getattr_min self).
  change (getattr_max (set_param self (PyList (pose self))))
    with (getattr_max self).
  split_ok.
  intros H; injection H as <-.
  rewrite chi2_None. cbn [vec param set_param].
  chi2_on_entry.
  rewrite Hold, Hnew, accept6_decides by trivial.
  destruct (fl_ltb new old); reflexivity.
Qed.

Lemma refine2_decides maxiter fix_ self cand old new :
  candidate (Refine2 maxiter fix_) self = Ok cand -> length cand = 6%nat ->
  chi2 self (Some (pose self)) = Ok old ->
  chi2 self (Some cand) = Ok new ->
  run (Refine2 maxiter fix_) self
  = if fl_ltb new old
    then (Ok (PyFloat new), committed (Refine2 maxiter fix_) self cand)
    else (Ok (PyFloat old), entry (Refine2 maxiter fix_) self).
Proof.
  intros Hc Hl Hold Hnew. revert Hc.
  unfold candidate, run, refine2, rbind. open_method.
  cbn [entry snapshot].
  change (map (getattr self) d6) with (pose self).
  destruct (refine2_minimize _ _ _) as [[np|]|e]; cbn [local];
    try (intros; discriminate).
  intros H; injection H as <-.
  rewrite chi2_None. cbn [vec param set_param].
  chi2_on_entry.
  rewrite Hold, Hnew, accept6_decides by trivial.
  destruct (fl_ltb new old); reflexivity.
Qed.

Lemma refine2_wavelength_decides maxiter fix_ self cand old new :
  candidate (Refine2_wavelength maxiter fix_) self = Ok cand ->
  length cand = 7%nat ->
  chi2_wavelength_on self (pose self ++ [1e10 * wavelength self]) = Ok old ->
  chi2_wavelength_on self cand = Ok new ->
  run (Refine2_wavelength maxiter fix_) self
  = if fl_ltb new old
    then (Ok (PyFloat new),
          committed (Refine2_wavelength maxiter fix_) self cand)
    else (Ok (PyFloat old), entry (Refine2_wavelength maxiter fix_) self).
Proof.
  intros Hc Hl Hold Hnew. revert Hc.
  unfold candidate, run, refine2_wavelength, rbind. open_method.
  cbn [entry snapshot].
  change (update_last (fun x : R => 1e10 * x)
            (map (getattr (set_param self (NdArray (pose7 self)))) d7))
    with (pose self ++ [1e10 * wavelength self]).
  change (make_bounds (set_param self (NdArray (pose7 self))) d7 fix_)
    with (make_bounds self d7 fix_).
  set (self1 := set_param (set_param self (NdArray (pose7 self)))
                  (NdArray (pose self ++ [1e10 * wavelength self]))).
  change (set_param self (NdArray (pose self ++ [1e10 * wavelength self])))
    with self1.
  change (chi2_wavelength None self1)
    with (chi2_wavelength_on self1 (pose self ++ [1e10 * wavelength self]), self1).
  destruct (refine2_wavelength_minimize _ _ _) as [[np|]|e]; cbn [local];
    try (intros; discriminate).
  intros H; injection H as ->.
  change (chi2_wavelength (Some cand) self1)
    with (chi2_wavelength_on self1 cand, self1).
  rewrite !chi2_wavelength_on_frame with (self := self) (self' := self1)
    by reflexivity.
  rewrite Hold, Hnew. cbv beta iota.
  rewrite accept7_decides by trivial.
  destruct (fl_ltb new old); reflexivity.
Qed.

Lemma setitem_length (l : list R) (i : nat) (v : R) :
  length (setitem l i v) = length l.
Proof.
  revert i. induction l as [|x t IH]; intros [|i]; cbn; auto.
Qed.

Lemma roca_field_length name i scale w0 w1 (p q : list R) :
  roca_field name i scale w0 w1 p = Ok q -> length q = length p.
Proof.
  unfold roca_field. destruct (w0 =? name)%string.
  - destruct (py_float w1); cbn [rbind]; [| discriminate].
    intros H; injection H as <-. apply setitem_length.
  - intros H; injection H as <-. reflexivity.
Qed.

Lemma roca_line_length self word (p q : list R) :
  roca_line self word p = Ok q -> length q = length p.
Proof.
  unfold roca_line.
  destruct word as [|w0 [|w1 [|w2 [|w3 t]]]];
    try (intros H; injection H as <-; reflexivity).
  repeat match goal with
    | |- rbind ?x _ = _ -> _ =>
        let E := fresh "E" in
        destruct x eqn:E; cbn [rbind]; [| discriminate];
        apply roca_field_length in E
    end.
  intros H. apply roca_field_length in H. congruence.
Qed.

Lemma roca_stdout_length self lines (p q : list R) :
  roca_stdout self lines p = Ok q -> length q = length p.
Proof.
  revert p. induction lines as [|word rest IH]; intros p; cbn [roca_stdout].
  - intros H; injection H as <-. reflexivity.
  - destruct (roca_line self word p) as [p'|e] eqn:E; cbn [rbind];
      [| discriminate].
    intros H. apply IH in H. apply roca_line_length in E. congruence.
Qed.

(** X9.  The candidate of [roca] always has six entries: the parsing loop
    only overwrites entries of the pose it starts from. *)
Theorem roca_candidate_has_six_entries (self : GeometryRefinement)
    (cand : list R) :
  candidate Roca self = Ok cand -> length cand = 6%nat.
Proof.
  unfold candidate.
  destruct (roca_input (data self)) as [tmpf|e]; cbn [rbind]; [| discriminate].
  intros H. apply roca_stdout_length in H. exact H.
Qed.

Lemma roca_decides self cand old new :
  candidate Roca self = Ok cand ->
  chi2 self (Some (vec (param self))) = Ok old ->
  chi2 self (Some cand) = Ok new ->
  run Roca self
  = if fl_ltb new old then (Ok PyNone, committed Roca self cand)
    else (Ok PyNone, self).
Proof.
  intros Hc Hold Hnew.
  pose proof (roca_candidate_has_six_entries self cand Hc) as Hl.
  revert Hc.
  unfold candidate, run, roca, rbind. open_method.
  destruct (roca_input (data self)) as [tmpf|e]; [| discriminate].
  intros ->.
  rewrite chi2_None, Hold, Hnew.
  destruct (fl_ltb new old); [| reflexivity].
  destruct cand as [|a [|b [|c [|d [|e [|f [|g t]]]]]]]; try discriminate.
  reflexivity.
Qed.

(** X10.  The decision, both ways.  When the minimizer returns a vector of
    the expected length and both chi-squared values can be evaluated, the
    call commits the candidate and returns its chi-squared if that is
    strictly lower than the snapshot's, and otherwise keeps the snapshot and
    returns the snapshot's chi-squared.  Nothing else decides: the log line
    cannot raise on vectors of that length. *)
Theorem accept_if_improved (s : strategy) (self : GeometryRefinement)
    (cand : list R) (old new : fl) :
  candidate s self = Ok cand ->
  length cand = arity s ->
  objective s self (vec (snapshot s self)) = Ok old ->
  objective s self cand = Ok new ->
  run s self
  = if fl_ltb new old then (returned s new, committed s self cand)
    else (returned s old, entry s self).
Proof.
  intros Hc Hl Hold Hnew.
  destruct s; cbn [arity objective snapshot vec returned] in *.
  - apply refine1_decides; assumption.
  - apply refine2_decides; assumption.
  - apply refine2_wavelength_decides; assumption.
  - apply simplex_decides; assumption.
  - apply anneal_decides; assumption.
  - apply roca_decides; assumption.
Qed.

(** ** Where a committed vector comes from *)

Ltac split_left :=
  repeat match goal with
    | |- context [match ?x with Ok _ => _ | Raise _ => _ end] =>
        let E := fresh "E" in
        destruct x eqn:E; [ | left; reflexivity ]
    end.

Ltac rewrite_ok :=
  repeat match goal with
    | E : ?x = Ok _ |- context [?x] => rewrite E; cbn [rbind local fst]
    end.

Ltac from_accept lem :=
  match goal with
  | |- context [lem ?o ?n ?c ?s1] =>
      let Hlt := fresh "Hlt" in
      let H := fresh "H" in
      let Hl := fresh "Hl" in
      let e := fresh "e" in
      match lem with
      | accept6 =>
          destruct (accept6_cases o n c s1) as [[Hlt H]|[Hlt [[e H]|[[Hl H]|[Hl H]]]]]
      | accept7 =>
          destruct (accept7_cases o n c s1) as [[Hlt H]|[Hlt [[e H]|[[Hl H]|[Hl H]]]]]
      end;
      rewrite H; cbn [snd];
      [ left; reflexivity
      | left; reflexivity
      | right; exists c; split;
        [ unfold candidate, rbind; cbn [entry snapshot]; rewrite_ok; reflexivity
        | left; reflexivity ]
      | right; exists c; split;
        [ unfold candidate, rbind; cbn [entry snapshot]; rewrite_ok; reflexivity
        | right; reflexivity ] ]
  end.

(** Whatever a call leaves in the pose fields or in [self.param] beyond the
    snapshot is the vector its minimizer returned. *)
Lemma run_candidate (s : strategy) (self : GeometryRefinement) :
  snd (run s self) = entry s self
  \/ exists cand,
       candidate s self = Ok cand /\
       (snd (run s self) = committed s self cand
        \/ snd (run s self) = param_only s self cand).
Proof.
  destruct s.
  - unfold run, refine1. open_method. split_left.
    from_accept accept6.
  - unfold run, refine2. open_method.
    change (map (getattr self) d6) with (pose self).
    split_left.
    destruct a as [np|]; [injection E1 as -> | discriminate E1].
    from_accept accept6.
  - unfold run, refine2_wavelength. open_method.
    change (update_last (fun x : R => 1e10 * x)
              (map (getattr (set_param self (NdArray (pose7 self)))) d7))
      with (pose self ++ [1e10 * wavelength self]).
    change (make_bounds (set_param self (NdArray (pose7 self))) d7 fix_)
      with (make_bounds self d7 fix_).
    set (self1 := set_param (set_param self (NdArray (pose7 self)))
                    (NdArray (pose self ++ [1e10 * wavelength self]))).
    change (chi2_wavelength None self1)
      with (chi2_wavelength_on self1 (pose self ++ [1e10 * wavelength self]), self1).
    split_left.
    destruct a as [np|]; [injection E1 as -> | discriminate E1].
    match goal with
    | |- context [chi2_wavelength (Some ?p) self1] =>
        change (chi2_wavelength (Some p) self1)
          with (chi2_wavelength_on self1 p, self1)
    end.
    cbv beta iota. split_left.
    change self1
      with (set_param self (NdArray (pose self ++ [1e10 * wavelength self])))
      in E.
    from_accept accept7.
  - unfold run, simplex. open_method. split_left.
    from_accept accept6.
  - unfold run, anneal. open_method.
    change (getattr_min (set_param self (PyList (pose self))))
      with (getattr_min self).
    change (getattr_max (set_param self (PyList (pose self))))
      with (getattr_max self).
    split_left.
    from_accept accept6.
  - unfold run, roca. open_method. split_left.
    match goal with
    | |- context [fl_ltb ?n ?o] => destruct (fl_ltb n o); [| left; reflexivity]
    end.
    right.
    match goal with
    | |- context [PyList ?c] => exists c
    end.
    split.
    + unfold candidate, rbind. rewrite_ok. reflexivity.
    + match goal with
      | |- context [PyList ?c] =>
          destruct c as [|a' [|b [|c' [|d [|e [|f [|g t]]]]]]]
      end;
        first [left; reflexivity | right; reflexivity].
Qed.

(** ** What a call leaves behind *)

(** X11.  The chi-squared a strategy returns is the chi-squared of the
    vector it leaves in [self.param]: [chi2()] right after the call (for
    [refine2_wavelength], [chi2_wavelength()]) gives the returned value
    again. *)
Theorem returned_is_chi2_of_param (s : strategy)
    (self self' : GeometryRefinement) (v : fl) :
  run s self = (Ok (PyFloat v), self') ->
  match s with
  | Refine2_wavelength _ _ => chi2_wavelength None self' = (Ok v, self')
  | _ => chi2 self' None = Ok v
  end.
Proof.
  intros Hrun.
  destruct (run_classified s self)
    as [[e H]|(cand & old & new & Hold & Hnew & H)]; [congruence|].
  destruct H as [[_ H]|[_ [[e H]|[[Hl H]|[_ H]]]]];
    rewrite H in Hrun; try discriminate Hrun.
  - injection Hrun as Hv <-.
    destruct s; cbn [returned] in Hv; try discriminate Hv;
      injection Hv as <-; cbn [objective snapshot vec] in Hold;
      try (rewrite chi2_None; exact Hold).
    match goal with
    | |- chi2_wavelength None ?e = _ =>
        change (chi2_wavelength None e)
          with (chi2_wavelength_on self (pose self ++ [1e10 * wavelength self]),
                e)
    end.
    rewrite Hold. reflexivity.
  - injection Hrun as Hv <-.
    destruct s; cbn [returned] in Hv; try discriminate Hv;
      injection Hv as <-; cbn [objective] in Hnew;
      try (rewrite chi2_None; exact Hnew).
    cbn [arity] in Hl.
    unfold chi2_wavelength, committed.
    cbn [param set_param set_pose set_wavelength]. rewrite Hl.
    cbn [Nat.eqb].
    rewrite chi2_wavelength_on_frame with (self := self) by reflexivity.
    rewrite Hnew. reflexivity.
Qed.

Lemma six_entries (l : list R) :
  length l = 6%nat ->
  [nth 0 l 0; nth 1 l 0; nth 2 l 0; nth 3 l 0; nth 4 l 0; nth 5 l 0] = l.
Proof.
  destruct l as [|a [|b [|c [|d [|e [|f [|g t]]]]]]]; try discriminate.
  reflexivity.
Qed.

(** X12.  After a call that returns, [self.param] and the pose fields tell
    the same story: [self.param] holds the six pose fields.  After
    [refine2_wavelength] a seventh entry [w] follows them, tied to
    [self.wavelength] by the product the code made last: [w] is
    [1e10 * self.wavelength] when nothing was committed, and
    [self.wavelength] is [1e-10 * w] when the candidate was.  The exception
    is [roca] when it commits nothing: it leaves [self.param] as it found
    it. *)
Theorem param_follows_pose (s : strategy) (self self' : GeometryRefinement)
    (v : pyval) :
  run s self = (Ok v, self') ->
  (s = Roca /\ self' = self)
  \/ match s with
     | Refine2_wavelength _ _ =>
         exists w,
           vec (param self') = pose self' ++ [w] /\
           (w = 1e10 * wavelength self' \/ wavelength self' = 1e-10 * w)
     | _ => vec (param self') = pose self'
     end.
Proof.
  intros Hrun.
  destruct (run_classified s self)
    as [[e H]|(cand & old & new & Hold & Hnew & H)]; [congruence|].
  destruct H as [[_ H]|[_ [[e H]|[[Hl H]|[_ H]]]]];
    rewrite H in Hrun; try discriminate Hrun; injection Hrun as _ <-.
  - destruct s; try (right; reflexivity).
    + right. exists (1e10 * wavelength self).
      split; [reflexivity | left; reflexivity].
    + left; split; reflexivity.
  - right. destruct s; cbn [arity] in Hl;
      try (cbn [committed vec param set_pose set_param pose dist poni1 poni2
                rot1 rot2 rot3];
           symmetry; apply six_entries; exact Hl).
    destruct cand as [|a [|b [|c [|d [|e [|f [|w [|h t]]]]]]]];
      try discriminate Hl.
    exists w. split; [reflexivity | right; reflexivity].
Qed.

(** ** Fixed parameters *)

Lemma refine2_minimize_from_slsqp self1 maxiter bnds cand :
  refine2_minimize self1 maxiter bnds = Ok (Some cand) ->
  exists obj, fmin_slsqp obj (vec (param self1)) maxiter bnds = Ok cand.
Proof.
  unfold refine2_minimize.
  destruct (ncols (data self1) =? 3)%nat;
    [| destruct (ncols (data self1) =? 4)%nat; [| discriminate]].
  all: repeat match goal with
         | |- rbind ?x _ = _ -> _ =>
             match x with
             | col _ _ => destruct x; cbn [rbind]; [| discriminate]
             end
         end.
  all: match goal with
       | |- rbind (fmin_slsqp ?obj _ _ _) _ = _ -> _ =>
           destruct (fmin_slsqp obj (vec (param self1)) maxiter bnds) eqn:E;
           cbn [rbind]; [| discriminate];
           intros H; injection H as <-; exists obj; exact E
       end.
Qed.

Lemma refine2_wavelength_minimize_from_slsqp self1 maxiter bnds cand :
  refine2_wavelength_minimize self1 maxiter bnds = Ok (Some cand) ->
  exists obj, fmin_slsqp obj (vec (param self1)) maxiter bnds = Ok cand.
Proof.
  unfold refine2_wavelength_minimize.
  destruct (ncols (data self1) =? 3)%nat;
    [| destruct (ncols (data self1) =? 4)%nat; [| discriminate]].
  all: repeat match goal with
         | |- rbind ?x _ = _ -> _ =>
             match x with
             | col _ _ => destruct x; cbn [rbind]; [| discriminate]
             end
         end.
  all: match goal with
       | |- rbind (fmin_slsqp ?obj _ _ _) _ = _ -> _ =>
           destruct (fmin_slsqp obj (vec (param self1)) maxiter bnds) eqn:E;
           cbn [rbind]; [| discriminate];
           intros H; injection H as <-; exists obj; exact E
       end.
Qed.

Lemma within_pinned (x v : R) : within x (v, v) -> x = v.
Proof. unfold within; cbn [fst snd]; lra. Qed.

(** X13.  A parameter named in [fix] stays fixed in [refine2].  Provided
    the vector the bounded minimizer returns honours the bounds it was
    given, every pose field whose name is in [fix] has after the call the
    value it had before, whether or not the candidate was committed. *)
Theorem refine2_fixed_parameters_stay (maxiter : nat) (fix_ : list string)
    (self : GeometryRefinement) :
  (forall obj cand,
     fmin_slsqp obj (pose self) maxiter (make_bounds self d6 fix_) = Ok cand ->
     Forall2 within cand (make_bounds self d6 fix_)) ->
  forall i, In i d6 -> in_fix i fix_ = true ->
    getattr (snd (run (Refine2 maxiter fix_) self)) i = getattr self i.
Proof.
  intros Hb i Hi Hfix.
  destruct (run_candidate (Refine2 maxiter fix_) self)
    as [H|(cand & Hc & [H|H])]; rewrite H.
  - destruct i; reflexivity.
  - unfold candidate, rbind in Hc. cbn [entry snapshot] in Hc.
    destruct (refine2_minimize _ _ _) as [[np|]|e] eqn:E;
      cbn [local] in Hc; try discriminate Hc.
    injection Hc as ->.
    apply refine2_minimize_from_slsqp in E. destruct E as [obj E].
    cbn [vec param set_param] in E.
    specialize (Hb obj cand E).
    cbn [make_bounds map d6] in Hb.
    repeat match goal with
      | Hf : Forall2 _ _ (_ :: _) |- _ => inversion Hf; subst; clear Hf
      | Hf : Forall2 _ _ [] |- _ => inversion Hf; subst; clear Hf
      end.
    destruct Hi as [<-|[<-|[<-|[<-|[<-|[<-|[]]]]]]];
      cbn [committed getattr set_pose set_param dist poni1 poni2 rot1 rot2
           rot3 nth];
      match goal with
      | Hw : within ?x (if in_fix ?j fix_ then _ else _) |- ?x = _ =>
          rewrite Hfix in Hw; apply within_pinned in Hw; exact Hw
      end.
  - destruct i; reflexivity.
Qed.

(** X14.  The same for the six pose fields in [refine2_wavelength].  The
    wavelength is another matter: named in [fix] (the default), its bounds
    collapse to [self.wavelength * 1e10] and a candidate that honours them
    carries that product, which a commit writes back multiplied by [1e-10].
    A fixed wavelength is therefore either untouched (nothing committed) or
    replaced by [1e-10 * (self.wavelength * 1e10)]. *)
Theorem refine2_wavelength_fixed_parameters (maxiter : nat)
    (fix_ : list string) (self : GeometryRefinement) :
  let bnds := update_last (fun b => (fst b * 1e10, snd b * 1e10))
                (make_bounds self d7 fix_) in
  (forall obj cand,
     fmin_slsqp obj (pose self ++ [1e10 * wavelength self]) maxiter bnds
     = Ok cand ->
     Forall2 within cand bnds) ->
  forall i, In i d7 -> in_fix i fix_ = true ->
    let self' := snd (run (Refine2_wavelength maxiter fix_) self) in
    getattr self' i = getattr self i
    \/ (i = Pwavelength /\
        wavelength self' = 1e-10 * (wavelength self * 1e10)).
Proof.
  intros bnds Hb i Hi Hfix. cbv zeta.
  destruct (run_candidate (Refine2_wavelength maxiter fix_) self)
    as [H|(cand & Hc & [H|H])]; rewrite H.
  - left. destruct i; reflexivity.
  - unfold candidate, rbind in Hc. cbn [entry snapshot] in Hc.
    fold bnds in Hc.
    destruct (refine2_wavelength_minimize _ _ _) as [[np|]|e] eqn:E;
      cbn [local] in Hc; try discriminate Hc.
    injection Hc as ->.
    apply refine2_wavelength_minimize_from_slsqp in E. destruct E as [obj E].
    cbn [vec param set_param] in E.
    specialize (Hb obj cand E).
    unfold bnds in Hb. cbn [make_bounds map d7 d6 app update_last] in Hb.
    repeat match goal with
      | Hf : Forall2 _ _ (_ :: _) |- _ => inversion Hf; subst; clear Hf
      | Hf : Forall2 _ _ [] |- _ => inversion Hf; subst; clear Hf
      end.
    destruct Hi as [<-|[<-|[<-|[<-|[<-|[<-|[<-|[]]]]]]]];
      cbn [committed getattr set_pose set_param set_wavelength dist poni1
           poni2 rot1 rot2 rot3 wavelength nth];
      try (left;
           match goal with
           | Hw : within ?x (if in_fix ?j fix_ then _ else _) |- ?x = _ =>
               rewrite Hfix in Hw; apply within_pinned in Hw; exact Hw
           end).
    right. split; [reflexivity|].
    match goal with
    | Hw : within ?x (fst (if in_fix Pwavelength fix_ then _ else _) * _, _)
      |- _ =>
        rewrite Hfix in Hw; cbn [fst snd] in Hw;
        apply within_pinned in Hw; rewrite Hw
    end.
    reflexivity.
  - left. destruct i; reflexivity.
Qed.

(** ** Datasets and tables on which nothing can be refined *)

(** A snapshot whose chi-squared cannot be evaluated ends every call with an
    exception and nothing committed. *)
Lemma unevaluable_snapshot (s : strategy) (self : GeometryRefinement) (e : exn) :
  objective s self (vec (snapshot s self)) = Raise e ->
  exists e', run s self = (Raise e', entry s self).
Proof.
  intros Hraise.
  destruct (run_classified s self)
    as [[e' H]|(cand & old & new & Hold & _)]; [eauto | congruence].
Qed.

Lemma residu1_no_table self p d1 d2 r rings :
  dSpacing self = [] ->
  residu1 self p d1 d2 (r :: rings) = Raise IndexError.
Proof.
  intros Hd. unfold residu1. rewrite calc_2th_empty_table by exact Hd.
  reflexivity.
Qed.

Lemma objective_no_table (s : strategy) (self : GeometryRefinement) :
  dSpacing self = [] -> rows (data self) <> [] ->
  exists e, objective s self (vec (snapshot s self)) = Raise e.
Proof.
  intros Hd Hrows.
  assert (Hc2 : forall c2, col 2 (data self) = Ok c2 ->
                           exists r t, c2 = r :: t).
  { unfold col. destruct (2 <? ncols (data self))%nat; [| discriminate].
    intros c2 H; injection H as <-.
    destruct (rows (data self)) as [|x t]; [contradiction|].
    cbn [map]. eauto. }
  assert (Hchi : forall p, exists e, chi2 self (Some p) = Raise e).
  { intros p. unfold chi2.
    destruct (col 0 (data self)); cbn [rbind]; [| eauto].
    destruct (col 1 (data self)); cbn [rbind]; [| eauto].
    destruct (col 2 (data self)) as [c2|] eqn:E; cbn [rbind]; [| eauto].
    destruct (Hc2 c2 eq_refl) as (r & t & ->).
    unfold residu2. rewrite residu1_no_table by exact Hd. cbn [rbind]. eauto. }
  destruct s; cbn [objective]; try apply Hchi.
  unfold chi2_wavelength_on.
  destruct (col 0 (data self)); cbn [rbind]; [| eauto].
  destruct (col 1 (data self)); cbn [rbind]; [| eauto].
  destruct (col 2 (data self)) as [c2|] eqn:E; cbn [rbind]; [| eauto].
  destruct (Hc2 c2 eq_refl) as (r & t & ->).
  unfold residu2_wavelength, residu1_wavelength.
  destruct (getitem _ 6); cbn [rbind]; [| eauto].
  cbn [astype_int32 map]. rewrite calc_2th_empty_table by exact Hd.
  cbn [rbind]. eauto.
Qed.

(** X15.  Without a d-spacing table (the constructor's default is the empty
    table) no strategy can work on a dataset that has observations: every
    call raises and commits nothing. *)
Theorem no_table_no_refinement (s : strategy) (self : GeometryRefinement) :
  dSpacing self = [] -> rows (data self) <> [] ->
  exists e, run s self = (Raise e, entry s self).
Proof.
  intros Hd Hrows.
  destruct (objective_no_table s self Hd Hrows) as [e He].
  exact (unevaluable_snapshot s self e He).
Qed.

(** X16.  On a dataset with fewer than three columns every strategy raises
    and commits nothing: the ring column cannot be read. *)
Theorem too_few_columns (s : strategy) (self : GeometryRefinement) :
  (ncols (data self) < 3)%nat ->
  exists e, run s self = (Raise e, entry s self).
Proof.
  intros Hn.
  assert (Hc : col 2 (data self) = Raise IndexError).
  { unfold col.
    assert (E : (2 <? ncols (data self))%nat = false)
      by (apply Nat.ltb_ge; lia).
    rewrite E. reflexivity. }
  assert (He : exists e, objective s self (vec (snapshot s self)) = Raise e).
  { destruct s; cbn [objective]; unfold chi2, chi2_wavelength_on;
      (destruct (col 0 (data self)); cbn [rbind]; [| eauto]);
      (destruct (col 1 (data self)); cbn [rbind]; [| eauto]);
      rewrite Hc; cbn [rbind]; eauto. }
  destruct He as [e He]. exact (unevaluable_snapshot s self e He).
Qed.

Lemma objective_no_rows (s : strategy) (self : GeometryRefinement)
    (p : list R) (x : fl) :
  rows (data self) = [] -> objective s self p = Ok x -> x = Fin 0.
Proof.
  intros Hrows.
  assert (Hcol : forall k c, col k (data self) = Ok c -> c = []).
  { intros k c. unfold col. rewrite Hrows.
    destruct (k <? ncols (data self))%nat; [| discriminate].
    intros H; injection H as <-. reflexivity. }
  destruct s; cbn [objective]; unfold chi2, chi2_wavelength_on;
    destruct (col 0 (data self)) as [c0|] eqn:E0; cbn [rbind];
    try discriminate;
    destruct (col 1 (data self)) as [c1|] eqn:E1; cbn [rbind];
    try discriminate;
    destruct (col 2 (data self)) as [c2|] eqn:E2; cbn [rbind];
    try discriminate;
    apply Hcol in E0, E1, E2; subst;
    unfold residu2, residu2_wavelength, residu1, residu1_wavelength;
    try (destruct (getitem p 6); cbn [rbind]; try discriminate);
    cbn; congruence.
Qed.

(** X17.  On a dataset without rows the chi-squared of every vector, where
    it can be evaluated, is 0, so nothing is ever strictly better: a call
    that does not raise returns 0 ([roca]: nothing) and commits nothing,
    whatever its minimizer proposes. *)
Theorem no_rows_nothing_to_improve (s : strategy) (self : GeometryRefinement) :
  rows (data self) = [] ->
  (exists e, run s self = (Raise e, entry s self))
  \/ run s self = (returned s (Fin 0), entry s self).
Proof.
  intros Hrows.
  destruct (objective s self (vec (snapshot s self))) as [old|e] eqn:Hold.
  - pose proof (objective_no_rows s self _ old Hrows Hold) as ->.
    apply at_optimum_nothing_changes; [exact Hold|].
    intros p new Hnew.
    rewrite (objective_no_rows s self p new Hrows Hnew).
    apply fl_ltb_irrefl.
  - left. exact (unevaluable_snapshot s self e Hold).
Qed.

(** ** What [roca] reads from the tool *)

Lemma roca_line_unrecognised self word (p : list R) :
  recognised word = false -> roca_line self word p = Ok p.
Proof.
  intros H. unfold roca_line.
  destruct word as [|w0 [|w1 [|w2 [|w3 t]]]]; try reflexivity.
  cbn [recognised existsb] in H.
  repeat match type of H with
    | (_ || _)%bool = false =>
        apply orb_false_iff in H; let E := fresh "E" in destruct H as [E H]
    end.
  unfold roca_field. rewrite E, E0, E1, E2, E3, E4. reflexivity.
Qed.

Lemma roca_line_malformed self (w0 w1 w2 : string) (p : list R) :
  recognised [w0; w1; w2] = true -> float_of_string w1 = None ->
  roca_line self [w0; w1; w2] p = Raise ValueError.
Proof.
  intros H Hf. unfold roca_line, roca_field, py_float. rewrite Hf.
  cbn [recognised existsb] in H.
  destruct (w0 =? "cen1")%string; cbn [rbind]; [reflexivity|].
  destruct (w0 =? "cen2")%string; cbn [rbind]; [reflexivity|].
  destruct (w0 =? "dis")%string; cbn [rbind]; [reflexivity|].
  destruct (w0 =? "rot1")%string; cbn [rbind]; [reflexivity|].
  destruct (w0 =? "rot2")%string; cbn [rbind]; [reflexivity|].
  destruct (w0 =? "rot3")%string; cbn [rbind]; [reflexivity|].
  discriminate H.
Qed.

Lemma roca_field_raises name i scale w0 w1 (p : list R) (e : exn) :
  roca_field name i scale w0 w1 p = Raise e -> e = ValueError.
Proof.
  unfold roca_field, py_float.
  destruct (w0 =? name)%string; [| discriminate].
  destruct (float_of_string w1); cbn [rbind]; congruence.
Qed.

Lemma roca_line_raises self word (p : list R) (e : exn) :
  roca_line self word p = Raise e -> e = ValueError.
Proof.
  unfold roca_line.
  destruct word as [|w0 [|w1 [|w2 [|w3 t]]]]; try discriminate.
  repeat match goal with
    | |- rbind ?x _ = _ -> _ =>
        let E := fresh "E" in
        destruct x eqn:E; cbn [rbind];
        [| apply roca_field_raises in E; congruence]
    end.
  apply roca_field_raises.
Qed.

(** X18.  Only recognised lines matter: the candidate parsed from the
    tool's output is the candidate parsed from its lines of exactly three
    words that start with [cen1], [cen2], [dis], [rot1], [rot2] or [rot3];
    every other line is skipped without error. *)
Theorem roca_skips_unrecognised_lines (self : GeometryRefinement)
    (lines : list (list string)) (p : list R) :
  roca_stdout self lines p = roca_stdout self (filter recognised lines) p.
Proof.
  revert p. induction lines as [|word rest IH]; intros p; [reflexivity|].
  cbn [roca_stdout filter].
  destruct (recognised word) eqn:E.
  - cbn [roca_stdout]. destruct (roca_line self word p); cbn [rbind];
      [apply IH | reflexivity].
  - rewrite roca_line_unrecognised by exact E. cbn [rbind]. apply IH.
Qed.

Lemma filter_none {A} (f : A -> bool) (l : list A) :
  Forall (fun x => f x = false) l -> filter f l = [].
Proof.
  induction 1 as [|x l Hx _ IH]; cbn [filter];
    [reflexivity | rewrite Hx; exact IH].
Qed.

Lemma set_param_pose_eta (self : GeometryRefinement) (q : pyvec) :
  set_pose (set_param self q)
    (nth 0 (pose self) 0) (nth 1 (pose self) 0) (nth 2 (pose self) 0)
    (nth 3 (pose self) 0) (nth 4 (pose self) 0) (nth 5 (pose self) 0)
  = set_param self q.
Proof. destruct self; reflexivity. Qed.

(** X19.  When the tool prints no recognised line, the candidate is the
    current pose, and the call cannot move the pose: the object is left as
    it was, except that [self.param] may have been replaced by the current
    pose (when [self.param] was out of date and worse). *)
Theorem roca_without_recognised_line (self : GeometryRefinement) :
  (forall tmpf, roca_input (data self) = Ok tmpf ->
     Forall (fun w => recognised w = false)
       (ROCA tmpf [pixel1 self; pixel2 self;
                   poni1 self / pixel1 self; poni2 self / pixel2 self;
                   dist self; rot1 self; rot2 self; rot3 self])) ->
  snd (run Roca self) = self
  \/ snd (run Roca self) = set_param self (PyList (pose self)).
Proof.
  intros Hnoise.
  destruct (run_candidate Roca self) as [H|(cand & Hc & H)];
    [left; exact H|].
  right.
  assert (Hcand : cand = pose self).
  { unfold candidate in Hc.
    destruct (roca_input (data self)) as [tmpf|e] eqn:E; cbn [rbind] in Hc;
      [| discriminate].
    rewrite roca_skips_unrecognised_lines in Hc.
    specialize (Hnoise tmpf eq_refl).
    assert (Hf : filter recognised
                   (ROCA tmpf [pixel1 self; pixel2 self;
                               poni1 self / pixel1 self;
                               poni2 self / pixel2 self;
                               dist self; rot1 self; rot2 self; rot3 self])
                 = []).
    { apply filter_none, Hnoise. }
    rewrite Hf in Hc. cbn [roca_stdout] in Hc. congruence. }
  subst cand.
  destruct H as [H|H]; rewrite H; [| reflexivity].
  apply set_param_pose_eta.
Qed.

Lemma roca_stdout_malformed self (lines : list (list string))
    (w0 w1 w2 : string) (p : list R) :
  In [w0; w1; w2] lines ->
  recognised [w0; w1; w2] = true -> float_of_string w1 = None ->
  roca_stdout self lines p = Raise ValueError.
Proof.
  intros Hin Hr Hf. revert p.
  induction lines as [|word rest IH]; intros p; [contradiction|].
  cbn [roca_stdout].
  destruct (roca_line self word p) as [q|e] eqn:E; cbn [rbind].
  - destruct Hin as [->|Hin].
    + rewrite roca_line_malformed in E by assumption. discriminate.
    + apply IH, Hin.
  - apply roca_line_raises in E. rewrite E. reflexivity.
Qed.

(** X20.  A recognised line whose second word is not a number is not
    skipped: wherever it stands in the output, the call raises
    [ValueError] and leaves the object untouched. *)
Theorem roca_malformed_number_raises (self : GeometryRefinement)
    (tmpf : list (list R)) (w0 w1 w2 : string) :
  roca_input (data self) = Ok tmpf ->
  In [w0; w1; w2]
     (ROCA tmpf [pixel1 self; pixel2 self;
                 poni1 self / pixel1 self; poni2 self / pixel2 self;
                 dist self; rot1 self; rot2 self; rot3 self]) ->
  recognised [w0; w1; w2] = true -> float_of_string w1 = None ->
  run Roca self = (Raise ValueError, self).
Proof.
  intros Hin Hline Hr Hf.
  unfold run, roca. open_method. rewrite Hin.
  rewrite (roca_stdout_malformed self _ w0 w1 w2) by assumption.
  reflexivity.
Qed.

(** ** The centre guess in general *)

Lemma fold_Rmin_spec (t : list R) (x : R) :
  In (fold_left Rmin t x) (x :: t) /\ Forall (Rle (fold_left Rmin t x)) (x :: t).
Proof.
  revert x. induction t as [|y t IH]; intros x; cbn [fold_left].
  - split; [left; reflexivity | constructor; [lra | constructor]].
  - destruct (IH (Rmin x y)) as [Hin Hle]. split.
    + destruct Hin as [Hin|Hin]; [| right; right; exact Hin].
      rewrite <- Hin. unfold Rmin. destruct (Rle_dec x y); cbn; auto.
    + inversion Hle as [|? ? Hm Ht]; subst.
      constructor; [| constructor; [| exact Ht]].
      * eapply Rle_trans; [exact Hm | apply Rmin_l].
      * eapply Rle_trans; [exact Hm | apply Rmin_r].
Qed.

Lemma exists_tth_min (l : list (list R)) :
  l <> [] -> exists m, is_tth_min m l.
Proof.
  destruct l as [|r t]; [contradiction|]. intros _.
  pose proof (fold_Rmin_spec (map (fun r => nth 2 r 0) t) (nth 2 r 0))
    as [Hin Hle].
  exists (fold_left Rmin (map (fun r => nth 2 r 0) t) (nth 2 r 0)).
  split; [exact Hin|].
  change (nth 2 r 0 :: map (fun r => nth 2 r 0) t)
    with (map (fun r => nth 2 r 0) (r :: t)) in Hle.
  rewrite Forall_map in Hle. exact Hle.
Qed.

Lemma is_tth_min_unique (m m' : R) (l : list (list R)) :
  is_tth_min m l -> is_tth_min m' l -> m = m'.
Proof.
  intros [Hin Hle] [Hin' Hle'].
  rewrite Forall_forall in Hle, Hle'.
  apply in_map_iff in Hin, Hin'.
  destruct Hin as (r & <- & Hr). destruct Hin' as (r' & <- & Hr').
  specialize (Hle r' Hr'). specialize (Hle' r Hr). cbv beta in *. lra.
Qed.

Lemma innermost_nonempty (m : R) (l : list (list R)) :
  is_tth_min m l -> innermost m l <> [].
Proof.
  intros [Hin _] Hnil. apply in_map_iff in Hin.
  destruct Hin as (r & Hr & Hin).
  assert (Hf : In r (innermost m l)).
  { unfold innermost. apply filter_In. split; [exact Hin|].
    rewrite Hr. unfold Rltb. destruct (Rlt_dec m (m + 1e-6)); [reflexivity|].
    exfalso; lra. }
  rewrite Hnil in Hf. exact Hf.
Qed.

Lemma np_sum_perm (l l' : list R) : Permutation l l' -> np_sum l = np_sum l'.
Proof.
  unfold np_sum.
  induction 1 as [|x l l' _ IH|x y l|l l' l'' _ IH1 _ IH2]; cbn [fold_right].
  - reflexivity.
  - rewrite IH. reflexivity.
  - lra.
  - congruence.
Qed.

Lemma centroid_perm (f : list R -> R) (l l' : list (list R)) :
  Permutation l l' -> centroid f l = centroid f l'.
Proof.
  intros Hp. unfold centroid.
  rewrite (np_sum_perm _ _ (Permutation_map f Hp)).
  rewrite (Permutation_length Hp). reflexivity.
Qed.

Lemma map2_map {A B C} (f : B -> B -> C) (g h : A -> B) (l : list A) :
  map2 f (map g l) (map h l) = map (fun x => f (g x) (h x)) l.
Proof. induction l as [|x l IH]; cbn; [| rewrite IH]; reflexivity. Qed.

Lemma guess_poni_centroid_at (self : GeometryRefinement) (m : R) :
  (2 < ncols (data self))%nat ->
  is_tth_min m (rows (data self)) ->
  guess_poni self
  = (Ok tt,
     set_poni self
       (centroid (fun r => fst (calc_cartesian_positions (nth 0 r 0) (nth 1 r 0)))
          (innermost m (rows (data self))))
       (centroid (fun r => snd (calc_cartesian_positions (nth 0 r 0) (nth 1 r 0)))
          (innermost m (rows (data self))))).
Proof.
  intros Hc Hmin.
  unfold guess_poni. open_method.
  unfold col. apply Nat.ltb_lt in Hc. rewrite Hc.
  rewrite (np_min_argsort m _ Hmin).
  fold (innermost m (argsort_rows (rows (data self)))).
  assert (Hp : Permutation (innermost m (argsort_rows (rows (data self))))
                 (innermost m (rows (data self)))).
  { unfold innermost. apply filter_perm, argsort_rows_perm. }
  rewrite map2_map, !map_map.
  f_equal. unfold set_poni. f_equal; apply (centroid_perm _ _ _ Hp).
Qed.

(** X21.  On every dataset with at least one row and three columns
    [guess_poni] succeeds: the innermost ring (column 2 below its minimum
    plus 1e-6) is never empty, and the two centre fields become the
    unweighted mean of the metric positions of its rows. *)
Theorem guess_poni_is_centroid_of_innermost_ring (self : GeometryRefinement) :
  rows (data self) <> [] -> (2 < ncols (data self))%nat ->
  exists m,
    is_tth_min m (rows (data self)) /\
    innermost m (rows (data self)) <> [] /\
    guess_poni self
    = (Ok tt,
       set_poni self
         (centroid (fun r => fst (calc_cartesian_positions (nth 0 r 0) (nth 1 r 0)))
            (innermost m (rows (data self))))
         (centroid (fun r => snd (calc_cartesian_positions (nth 0 r 0) (nth 1 r 0)))
            (innermost m (rows (data self))))).
Proof.
  intros Hrows Hc.
  destruct (exists_tth_min _ Hrows) as [m Hm].
  exists m. split; [exact Hm|]. split; [apply innermost_nonempty, Hm|].
  apply guess_poni_centroid_at; assumption.
Qed.

(** ** Construction *)

Lemma guess_poni_frame (self : GeometryRefinement) :
  exists a b, snd (guess_poni self) = set_poni self a b.
Proof.
  unfold guess_poni. open_method.
  destruct (col 2 (data self)); [| exists (poni1 self), (poni2 self);
                                   destruct self; reflexivity].
  destruct (np_min _); [eexists; eexists; reflexivity|].
  exists (poni1 self), (poni2 self). destruct self; reflexivity.
Qed.

(** X23.  The centre at construction.  With both [poni1] and [poni2]
    given, construction succeeds on any dataset, an empty one included, and
    stores them.  With one of them omitted the other is discarded and both
    are guessed; on a dataset without rows construction then raises, before
    any bound or table is set. *)
Theorem init_centre (self : GeometryRefinement) (ds : option (list R)) :
  (forall p1 p2,
     fst (__init__ (Some p1) (Some p2) ds self) = Ok tt /\
     poni1 (snd (__init__ (Some p1) (Some p2) ds self)) = p1 /\
     poni2 (snd (__init__ (Some p1) (Some p2) ds self)) = p2)
  /\
  (forall p, __init__ (Some p) None ds self = __init__ None None ds self /\
             __init__ None (Some p) ds self = __init__ None None ds self)
  /\
  (rows (data self) = [] ->
   forall a b, a = None \/ b = None ->
     exists e, __init__ a b ds self = (Raise e, self)).
Proof.
  split; [| split].
  - intros p1 p2. unfold __init__. open_method. cbn. auto.
  - intros p. split; reflexivity.
  - intros Hrows a b Hab.
    destruct (proj1 (guess_poni_empty_and_single self) Hrows) as [e He].
    exists e. unfold __init__, bind.
    destruct a, b; destruct Hab; try discriminate; rewrite He; reflexivity.
Qed.

(** X24.  The default bounds form a box: after a construction that
    succeeds, no (min, max) pair is inverted as long as the two pixel sizes
    are not negative. *)
Theorem init_bounds_ordered (self : GeometryRefinement)
    (a b : option R) (ds : option (list R)) :
  fst (__init__ a b ds self) = Ok tt ->
  0 <= pixel1 self -> 0 <= pixel2 self ->
  forall i,
    getattr_min (snd (__init__ a b ds self)) i
    <= getattr_max (snd (__init__ a b ds self)) i.
Proof.
  intros Hok H1 H2 i.
  pose proof PI_RGT_0 as Hpi.
  assert (Hcase : exists p1 p2,
             __init__ a b ds self
             = __init__ (Some p1) (Some p2) ds self).
  { destruct a as [p1|], b as [p2|]; try (exists p1, p2; reflexivity);
      revert Hok; unfold __init__, bind;
      destruct (guess_poni_frame self) as (x & y & Hxy);
      destruct (guess_poni self) as [[u|e] self1] eqn:E; cbn [snd] in Hxy;
      try discriminate; intros _; subst self1; destruct u;
      exists x, y; reflexivity. }
  destruct Hcase as (p1 & p2 & ->).
  unfold __init__. open_method.
  destruct i; cbn; lra.
Qed.

(** X25.  Constructed without a d-spacing table, the object cannot be
    refined on a dataset that has observations: every strategy raises and
    commits nothing. *)
Theorem init_without_table (self : GeometryRefinement) (a b : option R)
    (s : strategy) :
  fst (__init__ a b None self) = Ok tt ->
  rows (data self) <> [] ->
  let self' := snd (__init__ a b None self) in
  exists e, run s self' = (Raise e, entry s self').
Proof.
  intros Hok Hrows self'.
  assert (Hs : dSpacing self' = [] /\ data self' = data self).
  { unfold self', __init__, bind in *.
    destruct (guess_poni_frame self) as (x & y & Hxy).
    destruct a as [p1|], b as [p2|]; [cbn; auto | | |];
      (destruct (guess_poni self) as [[u|e] self1]; cbn [fst snd] in *;
       [subst self1; cbn; auto | discriminate Hok]). }
  destruct Hs as [Hd Hdata].
  apply no_table_no_refinement; [exact Hd | rewrite Hdata; exact Hrows].
Qed.

(** ** [chi2_wavelength()] on a list *)

(** X26.  When [self.param] is a list of six entries, the first
    [chi2_wavelength()] appends the scaled wavelength to it; a second call
    appends nothing more and returns the same value.  From then on the
    appended entry is what counts: assigning another [self.wavelength] does
    not change what [chi2_wavelength()] returns. *)
Theorem chi2_wavelength_second_call (self : GeometryRefinement) (l : list R) :
  param self = PyList l -> length l = 6%nat ->
  let r1 := chi2_wavelength None self in
  param (snd r1) = PyList (l ++ [1e10 * wavelength self]) /\
  chi2_wavelength None (snd r1) = r1 /\
  (forall w, chi2_wavelength None (set_wavelength (snd r1) w)
             = (fst r1, set_wavelength (snd r1) w)).
Proof.
  intros Hp Hl r1. unfold r1.
  rewrite (chi2_wavelength_list6 self l Hp Hl). cbv zeta. cbn [fst snd].
  assert (Hl7 : Nat.eqb (length (l ++ [1e10 * wavelength self])) 6 = false).
  { rewrite length_app, Hl. reflexivity. }
  split; [reflexivity|]. split.
  - unfold chi2_wavelength. cbn [param set_param]. rewrite Hl7.
    f_equal.
  - intros w. unfold chi2_wavelength.
    cbn [param set_param set_wavelength]. rewrite Hl7. f_equal.
Qed.

End Engine.

(** * The definitions at work *)

(** ** The reference angle *)

Lemma int32_of_0 : int32_of 0 = 0%Z.
Proof.
  unfold int32_of, Rtrunc.
  destruct (Rle_dec 0 0) as [_|H]; [| exfalso; lra].
  change 0 with (INR 0). rewrite Int_part_INR. reflexivity.
Qed.

(** One ring, index 0, in a one-entry table. *)
Lemma calc_2th_ring0 (self : GeometryRefinement) (d lambda : R) :
  dSpacing self = [d] ->
  calc_2th self [0] lambda
  = Ok [fl_scale 2.0 (np_arcsin_div lambda (2.0e-10 * d))].
Proof.
  intros Hd. unfold calc_2th. cbn [map]. rewrite int32_of_0, Hd. reflexivity.
Qed.

Lemma np_arcsin_div_in_domain (x y : R) :
  y <> 0 -> -1 <= x / y <= 1 -> np_arcsin_div x y = Fin (asin (x / y)).
Proof.
  intros Hy [Hlo Hhi]. unfold np_arcsin_div, np_arcsin.
  destruct (Req_dec_T y 0) as [H|_]; [contradiction|].
  destruct (Rle_dec (-1) (x / y)) as [_|H]; [| contradiction].
  destruct (Rle_dec (x / y) 1) as [_|H]; [| contradiction].
  reflexivity.
Qed.

Lemma np_arcsin_div_above_domain (x y : R) :
  1 < x / y -> np_arcsin_div x y = NaN.
Proof.
  intros H. unfold np_arcsin_div, np_arcsin.
  destruct (Req_dec_T y 0); [reflexivity|].
  destruct (Rle_dec (-1) (x / y)); [| reflexivity].
  destruct (Rle_dec (x / y) 1); [exfalso; lra | reflexivity].
Qed.

(** With the entry 3e-10 (metres) the argument handed to arcsin is
    1e-10 / (2.0e-10 * 3e-10), far above 1. *)
Lemma calc_2th_metre_table (self : GeometryRefinement) :
  calc_2th (set_dSpacing self [3e-10]) [0] 1e-10 = Ok [NaN].
Proof.
  rewrite (calc_2th_ring0 _ 3e-10) by reflexivity.
  rewrite np_arcsin_div_above_domain by lra.
  reflexivity.
Qed.

(** C5, as the code has it.  The table is read in angstrom: with the entry
    3 the angle of ring 0 at wavelength 1e-10 is 2 arcsin(1/6); with the
    entry 3e-10 the result is nan. *)
Theorem calc_2th_table_in_angstrom (self : GeometryRefinement) :
  calc_2th (set_dSpacing self [3]) [0] 1e-10 = Ok [Fin (2 * asin (1 / 6))]
  /\ calc_2th (set_dSpacing self [3e-10]) [0] 1e-10 = Ok [NaN].
Proof.
  split; [| apply calc_2th_metre_table].
  rewrite (calc_2th_ring0 _ 3) by reflexivity.
  rewrite np_arcsin_div_in_domain by lra.
  cbn [fl_scale].
  replace (1e-10 / (2.0e-10 * 3)) with (1 / 6) by lra.
  replace 2.0 with 2 by lra. reflexivity.
Qed.

(** C5, as the claim has it: refuted on the table [3e-10]. *)
Lemma calc_2th_metre_table_is_not_arcsin_sixth :
  calc_2th (set_dSpacing engine0 [3e-10]) [0] 1e-10
  <> Ok [Fin (2 * asin (1 / 6))].
Proof.
  rewrite calc_2th_metre_table. discriminate.
Qed.

(** ** Runs on the concrete setting *)

Abbreviation run0 :=
  (run tth0 noop_leastsq noop_slsqp noop_fmin noop_anneal silent_roca no_float).

(** The chi-squared of any vector on [engine0]: the model angle is 0 and the
    reference angle of the single observation is 2 arcsin(1/6). *)
Lemma chi2_engine0 (p : list R) : chi2 tth0 engine0 (Some p) = Ok chi2_0.
Proof.
  unfold chi2, residu2, residu1. cbn [col data engine0 data0 ncols rows Nat.ltb
    Nat.leb map nth rbind wavelength].
  rewrite (calc_2th_ring0 _ 3) by reflexivity.
  rewrite np_arcsin_div_in_domain by lra.
  reflexivity.
Qed.

(** [roca] on the concrete setting, where the tool prints nothing. *)
Lemma roca_non_improving_returns_None_witness :
  run0 Roca engine0 = (Ok PyNone, engine0) /\
  fst (run0 Roca engine0) <> Ok (PyFloat chi2_0).
Proof.
  apply (roca_non_improving_returns_None tth0 noop_leastsq noop_slsqp
           noop_fmin noop_anneal silent_roca no_float engine0
           [[0; 0; 0]] (pose engine0) chi2_0 chi2_0).
  - reflexivity.
  - reflexivity.
  - apply chi2_engine0.
  - apply chi2_engine0.
  - apply fl_ltb_irrefl.
Defined.

(** [refine2_wavelength] with the minimizer that hands its start back. *)
Lemma refine2_wavelength_noop_keeps_wavelength_witness :
  wavelength (snd (refine2_wavelength tth0 noop_slsqp 100 ["wavelength"%string] engine0))
  = wavelength engine0 /\
  1e-10 * (1e10 * wavelength engine0) = wavelength engine0.
Proof.
  apply (refine2_wavelength_noop_keeps_wavelength tth0 noop_slsqp).
  intros f x0 n b. reflexivity.
Defined.

(** The bounded strategies on five columns. *)
Lemma bounded_strategies_reject_other_shapes_witness :
  ((exists e, fst (refine2 tth0 noop_slsqp 100 ["wavelength"%string]
                     (set_data engine0 data5)) = Raise e) /\
   pose7 (snd (refine2 tth0 noop_slsqp 100 ["wavelength"%string]
                 (set_data engine0 data5))) = pose7 (set_data engine0 data5))
  /\
  ((exists e, fst (refine2_wavelength tth0 noop_slsqp 100 ["wavelength"%string]
                     (set_data engine0 data5)) = Raise e) /\
   pose7 (snd (refine2_wavelength tth0 noop_slsqp 100 ["wavelength"%string]
                 (set_data engine0 data5))) = pose7 (set_data engine0 data5)).
Proof.
  apply (bounded_strategies_reject_other_shapes tth0 noop_slsqp);
    cbn; lia.
Defined.

(** [set_tolerance] on the concrete setting, whose [poni1] is 0. *)
Lemma set_tolerance_degenerate_poni1_square_witness :
  (forall value,
     let b := bounds (snd (set_tolerance value engine0)) in
     _poni1_min b = - (value / 100) ^ 2 /\ _poni1_max b = (value / 100) ^ 2)
  /\ tolerance_window_b64 10 0
     = (-0.010000000000000002, 0.010000000000000002)%float
  /\ next_up 0.01 = 0.010000000000000002%float.
Proof.
  apply (set_tolerance_degenerate_poni1_square engine0). reflexivity.
Defined.

(** [set_tolerance(10)] at distance 0. *)
Lemma set_tolerance_dist_wavelength_linear_witness :
  let self := set_pose engine0 0 0 0 0 0 0 in
  let b := bounds (snd (set_tolerance 10 self)) in
  _dist_min b = 0 /\ _dist_max b = 0.
Proof.
  intros self b.
  apply (set_tolerance_dist_wavelength_linear 10 self). reflexivity.
Defined.

(** [guess_poni] without rows, and on two rows of which the second is the
    innermost ring. *)
Lemma guess_poni_empty_and_single_witness :
  (exists e, guess_poni cartesian0 (set_data engine0 data_empty)
             = (Raise e, set_data engine0 data_empty))
  /\
  guess_poni cartesian0 (set_data engine0 data1)
  = (Ok tt, set_poni (set_data engine0 data1)
              (fst (cartesian0 1 2)) (snd (cartesian0 1 2))).
Proof.
  split.
  - apply (proj1 (guess_poni_empty_and_single cartesian0
                    (set_data engine0 data_empty))).
    reflexivity.
  - apply (proj2 (guess_poni_empty_and_single cartesian0
                    (set_data engine0 data1)) 0 [1; 2; 0]).
    + cbn. lia.
    + split.
      * cbn. auto.
      * cbn. repeat (apply Forall_cons; [cbn; lra|]). apply Forall_nil.
    + unfold innermost, Rltb. cbn [filter set_data data data1 rows nth].
      destruct (Rlt_dec 1 (0 + 1e-6)) as [H|_]; [exfalso; lra|].
      destruct (Rlt_dec 0 (0 + 1e-6)) as [_|H]; [reflexivity | exfalso; lra].
Defined.

(** [roca] on the concrete setting: the tool prints nothing, the candidate
    is the pose itself, nothing is committed, and the call returns [None]. *)
Example roca_engine0 : run0 Roca engine0 = (Ok PyNone, engine0).
Proof.
  unfold run, roca. open_method.
  cbn [roca_input data engine0 data0 rows ncols Nat.ltb Nat.leb].
  cbn [silent_roca roca_stdout].
  rewrite chi2_None. rewrite !chi2_engine0. rewrite fl_ltb_irrefl. reflexivity.
Qed.

(** The unbound local on five columns. *)
Example refine2_data5 :
  fst (refine2 tth0 noop_slsqp 100 ["wavelength"%string]
         (set_data engine0 data5))
  = Raise UnboundLocalError.
Proof.
  assert (Hc : exists old,
             chi2 tth0 (set_data engine0 data5)
               (Some (pose (set_data engine0 data5))) = Ok old).
  { eexists. unfold chi2, residu2, residu1.
    cbn [col data set_data engine0 data5 ncols rows Nat.ltb Nat.leb map nth
         rbind wavelength].
    rewrite (calc_2th_ring0 _ 3) by reflexivity.
    rewrite np_arcsin_div_in_domain by lra.
    reflexivity. }
  destruct Hc as [old Hc].
  rewrite (refine2_unbound_local tth0 noop_slsqp _ _ _ old); trivial;
    cbn; lia.
Qed.

(** ** [roca] and an out-of-date [self.param]

    [refine1], [refine2], [refine2_wavelength], [simplex] and [anneal] begin
    by writing the pose into [self.param]; [roca] (lines 399-436) does not,
    and compares its candidate with [self.param] as it finds it. *)

Lemma chi2_engine_stale (p : list R) :
  chi2 tth_dist engine_stale (Some p) = Ok (Fin (nth 0 p 0 * nth 0 p 0)).
Proof.
  unfold chi2, residu2, residu1. cbn [col data engine_stale data0 ncols rows
    Nat.ltb Nat.leb map nth rbind wavelength].
  rewrite (calc_2th_ring0 _ 3) by reflexivity.
  rewrite np_arcsin_div_in_domain by lra.
  replace (0 / (2.0e-10 * 3)) with 0 by lra. rewrite asin_0.
  cbn [np_tth map2 tth_dist nth fl_scale fl_rsub fl_sqr fl_sum fold_right
       fl_add map rbind].
  unfold tth_dist. do 2 f_equal. lra.
Qed.

(** C1.  [roca] commits a candidate whose chi-squared is higher than that
    of the pose it starts from.  On [engine_stale] the pose has chi-squared
    1 and [self.param], out of date, has 9; the tool prints [dis 2 m], a
    candidate of chi-squared 4.  It is below 9, so [roca] commits it to the
    pose fields and to [self.param]: the chi-squared of the pose goes from
    1 up to 4. *)
Theorem roca_regresses_against_stale_param :
  let r := run tth_dist noop_leastsq noop_slsqp noop_fmin noop_anneal
             roca_dis2 float_two Roca engine_stale in
  pose engine_stale = [1; 0; 0; 0; 0; 0] /\
  param engine_stale = PyList [3; 0; 0; 0; 0; 0] /\
  chi2 tth_dist engine_stale (Some (pose engine_stale)) = Ok (Fin (1 * 1)) /\
  chi2 tth_dist engine_stale None = Ok (Fin (3 * 3)) /\
  fst r = Ok PyNone /\
  pose (snd r) = [2 * 1; 0; 0; 0; 0; 0] /\
  vec (param (snd r)) = [2 * 1; 0; 0; 0; 0; 0] /\
  chi2 tth_dist (snd r) (Some (pose (snd r))) = Ok (Fin (2 * 1 * (2 * 1))) /\
  fl_ltb (Fin (1 * 1)) (Fin (2 * 1 * (2 * 1))) = true.
Proof.
  assert (Hout : roca_stdout float_two engine_stale
                   (roca_dis2 [[0; 0; 0]]
                      [pixel1 engine_stale; pixel2 engine_stale;
                       poni1 engine_stale / pixel1 engine_stale;
                       poni2 engine_stale / pixel2 engine_stale;
                       dist engine_stale; rot1 engine_stale;
                       rot2 engine_stale; rot3 engine_stale])
                   (pose engine_stale)
                 = Ok [2 * 1; 0; 0; 0; 0; 0]) by reflexivity.
  assert (Hrun : run tth_dist noop_leastsq noop_slsqp noop_fmin noop_anneal
                   roca_dis2 float_two Roca engine_stale
                 = (Ok PyNone,
                    committed Roca engine_stale [2 * 1; 0; 0; 0; 0; 0])).
  { unfold run, roca. open_method.
    change (roca_input (data engine_stale)) with (Ok (A:=list (list R)) [[0; 0; 0]]).
    cbn [rbind]. cbv beta. rewrite Hout.
    rewrite chi2_None, !chi2_engine_stale.
    cbn [vec param engine_stale nth fl_ltb].
    destruct (Rlt_dec (2 * 1 * (2 * 1)) (3 * 3)) as [_|H]; [| exfalso; lra].
    reflexivity. }
  cbv zeta. rewrite Hrun. cbn [fst snd].
  split; [reflexivity|].
  split; [reflexivity|].
  split; [apply chi2_engine_stale|].
  split; [rewrite chi2_None; apply chi2_engine_stale|].
  split; [reflexivity|].
  split; [reflexivity|].
  split; [reflexivity|].
  split.
  - rewrite chi2_frame with (self := engine_stale) by reflexivity.
    apply chi2_engine_stale.
  - cbn [fl_ltb].
    destruct (Rlt_dec (1 * 1) (2 * 1 * (2 * 1))) as [_|H];
      [reflexivity | exfalso; lra].
Qed.

(** ** A commit

    [refine1] on [engine_stale] with a least-squares routine that finds the
    zero vector: chi-squared falls from 1 to 0, the log line runs, and the
    candidate reaches [self.param] and the pose fields. *)

Lemma log_maxdelta_unit_step :
  log_maxdelta d6 [1; 0; 0; 0; 0; 0] [0; 0; 0; 0; 0; 0] = Ok tt.
Proof.
  unfold log_maxdelta, np_sub.
  cbn [length Nat.eqb map2 map rbind np_argmax].
  replace (1 - 0) with 1 by lra. replace (0 - 0) with 0 by lra.
  rewrite Rabs_R1, Rabs_R0.
  cbn [argmax_from].
  destruct (Rlt_dec 1 0) as [H|_]; [exfalso; lra|].
  reflexivity.
Qed.

Example refine1_commits :
  run tth_dist zero_leastsq noop_slsqp noop_fmin noop_anneal
    silent_roca no_float Refine1 engine_stale
  = (Ok (PyFloat (Fin (0 * 0))),
     committed Refine1 engine_stale [0; 0; 0; 0; 0; 0]).
Proof.
  unfold run, refine1. open_method.
  cbn [col data engine_stale data0 ncols rows Nat.ltb Nat.leb].
  cbn [zero_leastsq fst].
  repeat match goal with
    | |- context [chi2 ?t (set_param ?s ?q) (Some ?p)] =>
        change (chi2 t (set_param s q) (Some p)) with (chi2 t s (Some p))
    end.
  rewrite !chi2_engine_stale.
  unfold accept6.
  cbn [pose engine_stale dist poni1 poni2 rot1 rot2 rot3 nth fl_ltb
       vec param set_param].
  destruct (Rlt_dec (0 * 0) (1 * 1)) as [_|H]; [| exfalso; lra].
  change (pose engine_stale) with [1; 0; 0; 0; 0; 0].
  rewrite log_maxdelta_unit_step.
  reflexivity.
Qed.

(** [refine2_wavelength] on [engine_stale] with a bounded minimizer that
    brings the distance to zero. *)

Lemma chi2_wavelength_on_engine_stale (p : list R) (w : R) :
  getitem p 6 = Ok w -> w * 1e-10 = 0 ->
  chi2_wavelength_on tth_dist engine_stale p
  = Ok (Fin (nth 0 p 0 * nth 0 p 0)).
Proof.
  intros Hg Hw.
  unfold chi2_wavelength_on, residu2_wavelength, residu1_wavelength.
  cbn [col data engine_stale data0 ncols rows Nat.ltb Nat.leb map nth rbind].
  rewrite Hg. cbn [rbind]. rewrite Hw.
  rewrite calc_2th_astype.
  rewrite (calc_2th_ring0 _ 3) by reflexivity.
  rewrite np_arcsin_div_in_domain by lra.
  replace (0 / (2.0e-10 * 3)) with 0 by lra. rewrite asin_0.
  cbn [np_tth map2 tth_dist nth fl_scale fl_rsub fl_sqr fl_sum fold_right
       fl_add map rbind].
  unfold tth_dist. do 2 f_equal. lra.
Qed.

(** The call commits: the chi-squared falls from 1 to 0, the distance goes
    to zero, and the wavelength is written back as the product of the
    seventh entry by [1e-10]. *)
Example refine2_wavelength_commits :
  run tth_dist noop_leastsq zero_dist_slsqp noop_fmin noop_anneal
    silent_roca no_float (Refine2_wavelength 100 ["wavelength"%string])
    engine_stale
  = (Ok (PyFloat (Fin (0 * 0))),
     committed (Refine2_wavelength 100 ["wavelength"%string]) engine_stale
       [0; 0; 0; 0; 0; 0; 1e10 * 0]).
Proof.
  rewrite (refine2_wavelength_decides tth_dist noop_leastsq zero_dist_slsqp
             noop_fmin noop_anneal silent_roca no_float 100
             ["wavelength"%string] engine_stale
             [0; 0; 0; 0; 0; 0; 1e10 * 0] (Fin (1 * 1)) (Fin (0 * 0))).
  - cbn [fl_ltb].
    destruct (Rlt_dec (0 * 0) (1 * 1)) as [_|H]; [reflexivity | exfalso; lra].
  - reflexivity.
  - reflexivity.
  - apply (chi2_wavelength_on_engine_stale [1; 0; 0; 0; 0; 0; 1e10 * 0]
             (1e10 * 0)); [reflexivity | lra].
  - apply (chi2_wavelength_on_engine_stale [0; 0; 0; 0; 0; 0; 1e10 * 0]
             (1e10 * 0)); [reflexivity | lra].
Qed.

(** ** The further properties on the concrete settings *)

(** [set_tolerance(10)] on the concrete setting. *)
Lemma set_tolerance_keeps_pose_feasible_witness :
  let b := bounds (snd (set_tolerance 10 engine0)) in
  _dist_min b <= dist engine0 <= _dist_max b /\
  _poni1_min b <= poni1 engine0 <= _poni1_max b.
Proof.
  intros b.
  destruct (set_tolerance_keeps_pose_feasible 10 engine0 ltac:(lra))
    as [[Hp _] [Hd _]].
  split; [apply Hd; cbn; lra | exact Hp].
Defined.


(** Ring 0 and ring -1 are in the one-entry table of [engine0], ring 1 is
    not. *)
Lemma calc_2th_ring_lookup_witness :
  (exists c, calc_2th engine0 (map IZR [0; -1]%Z) 1e-10 = Ok c /\
             length c = 2%nat)
  /\ calc_2th engine0 (map IZR [0; 1]%Z) 1e-10 = Raise IndexError.
Proof.
  split.
  - apply (calc_2th_ring_lookup engine0 [0; -1]%Z 1e-10).
    + repeat constructor; lia.
    + repeat constructor; cbn; lia.
  - apply (calc_2th_ring_lookup engine0 [0; 1]%Z 1e-10).
    + repeat constructor; lia.
    + apply Exists_cons_tl, Exists_cons_hd. cbn. lia.
Defined.

(** The chi-squared of [engine0] is not negative. *)
Lemma objectives_nonnegative_witness :
  0 <= (0 - 2.0 * asin (1e-10 / (2.0e-10 * 3)))
       * (0 - 2.0 * asin (1e-10 / (2.0e-10 * 3))) + 0.
Proof.
  apply (proj1 (objectives_nonnegative tth0 engine0 (pose engine0)
                  [0] [0] [0] [] _)).
  exact (chi2_engine0 (pose engine0)).
Defined.

(** One observation with weight 1. *)
Lemma unit_weights_change_nothing_witness :
  residu2_weighted tth0 engine0 (pose engine0) [0] [0] [0] [1]
  = residu2 tth0 engine0 (pose engine0) [0] [0] [0].
Proof.
  apply (unit_weights_change_nothing tth0 engine0 (pose engine0)
           [0] [0] [0] [1]); try reflexivity.
  repeat constructor.
Defined.

(** The two objectives on the pose of [engine0], at the seventh entry 1. *)
Lemma chi2_wavelength_is_chi2_at_scaled_entry_witness :
  chi2_wavelength_on tth0 engine0 (pose engine0 ++ [1])
  = chi2 tth0 (set_wavelength engine0 (1 * 1e-10)) (Some (pose engine0)).
Proof.
  apply (chi2_wavelength_is_chi2_at_scaled_entry tth0 engine0 (pose engine0) 1);
    reflexivity.
Defined.

(** The candidate of [roca] on [engine_stale], from the line [dis 2 m]. *)
Lemma roca_candidate_has_six_entries_witness :
  candidate tth_dist noop_leastsq noop_slsqp noop_fmin noop_anneal
    roca_dis2 float_two Roca engine_stale = Ok [2 * 1; 0; 0; 0; 0; 0]
  /\ length [2 * 1; 0; 0; 0; 0; 0] = 6%nat.
Proof.
  split; [reflexivity|].
  apply (roca_candidate_has_six_entries tth_dist noop_leastsq noop_slsqp
           noop_fmin noop_anneal roca_dis2 float_two engine_stale).
  reflexivity.
Defined.

(** [refine1] on [engine_stale] with the routine that finds the zero
    vector: chi-squared 0 against 1, committed. *)
Lemma accept_if_improved_witness :
  run tth_dist zero_leastsq noop_slsqp noop_fmin noop_anneal
    silent_roca no_float Refine1 engine_stale
  = if fl_ltb (Fin (0 * 0)) (Fin (1 * 1))
    then (Ok (PyFloat (Fin (0 * 0))),
          committed Refine1 engine_stale [0; 0; 0; 0; 0; 0])
    else (Ok (PyFloat (Fin (1 * 1))), entry Refine1 engine_stale).
Proof.
  apply (accept_if_improved tth_dist zero_leastsq noop_slsqp noop_fmin
           noop_anneal silent_roca no_float Refine1 engine_stale
           [0; 0; 0; 0; 0; 0]).
  - reflexivity.
  - reflexivity.
  - apply chi2_engine_stale.
  - apply chi2_engine_stale.
Defined.

(** After that call [chi2()] returns the value the call returned. *)
Lemma returned_is_chi2_of_param_witness :
  chi2 tth_dist (committed Refine1 engine_stale [0; 0; 0; 0; 0; 0]) None
  = Ok (Fin (0 * 0)).
Proof.
  apply (returned_is_chi2_of_param tth_dist zero_leastsq noop_slsqp noop_fmin
           noop_anneal silent_roca no_float Refine1 engine_stale).
  apply refine1_commits.
Defined.

(** After the committing call of [refine2_wavelength] on [engine_stale],
    [self.param] holds the pose fields and a seventh entry. *)
Lemma param_follows_pose_witness :
  let s := Refine2_wavelength 100 ["wavelength"%string] in
  let self' := committed s engine_stale [0; 0; 0; 0; 0; 0; 1e10 * 0] in
  (s = Roca /\ self' = engine_stale)
  \/ exists w,
       vec (param self') = pose self' ++ [w] /\
       (w = 1e10 * wavelength self' \/ wavelength self' = 1e-10 * w).
Proof.
  intros s self'.
  apply (param_follows_pose tth_dist noop_leastsq zero_dist_slsqp noop_fmin
           noop_anneal silent_roca no_float s engine_stale self'
           (PyFloat (Fin (0 * 0)))).
  apply refine2_wavelength_commits.
Defined.

Lemma pose0_within_bounds0 (fix_ : list string) :
  Forall2 within (pose engine0) (make_bounds engine0 d6 fix_).
Proof.
  pose proof PI_RGT_0.
  cbn [make_bounds map d6 pose engine0 dist poni1 poni2 rot1 rot2 rot3].
  repeat (apply Forall2_cons;
          [ match goal with
            | |- context [in_fix ?i fix_] => destruct (in_fix i fix_)
            end; unfold within; cbn; lra | ]).
  apply Forall2_nil.
Qed.

(** [refine2] with [fix = ["dist"]] on the concrete setting, whose pose is
    inside the default bounds. *)
Lemma refine2_fixed_parameters_stay_witness :
  getattr (snd (run0 (Refine2 100 ["dist"%string]) engine0)) Pdist
  = getattr engine0 Pdist.
Proof.
  apply (refine2_fixed_parameters_stay tth0 noop_leastsq noop_slsqp noop_fmin
           noop_anneal silent_roca no_float 100 ["dist"%string] engine0).
  - intros obj cand H. injection H as <-. apply pose0_within_bounds0.
  - cbn. auto.
  - reflexivity.
Defined.

(** [refine2_wavelength] with the default [fix] on [engine_stale], with a
    minimizer that brings the distance to zero inside the bounds. *)
Lemma refine2_wavelength_fixed_parameters_witness :
  let self' :=
    snd (run tth_dist noop_leastsq zero_dist_slsqp noop_fmin noop_anneal
           silent_roca no_float
           (Refine2_wavelength 100 ["wavelength"%string]) engine_stale) in
  getattr self' Pwavelength = getattr engine_stale Pwavelength
  \/ (Pwavelength = Pwavelength /\
      wavelength self' = 1e-10 * (wavelength engine_stale * 1e10)).
Proof.
  apply (refine2_wavelength_fixed_parameters tth_dist noop_leastsq
           zero_dist_slsqp noop_fmin noop_anneal silent_roca no_float 100
           ["wavelength"%string] engine_stale).
  - intros obj cand H. injection H as <-.
    pose proof PI_RGT_0.
    repeat (apply Forall2_cons; [unfold within; cbn; lra |]).
    apply Forall2_nil.
  - cbn. auto 10.
  - reflexivity.
Defined.


(** [simplex] on the concrete setting without its table. *)
Lemma no_table_no_refinement_witness :
  exists e, run0 (Simplex 100) (set_dSpacing engine0 [])
            = (Raise e, entry (Simplex 100) (set_dSpacing engine0 [])).
Proof.
  apply (no_table_no_refinement tth0 noop_leastsq noop_slsqp noop_fmin
           noop_anneal silent_roca no_float).
  - reflexivity.
  - discriminate.
Defined.

(** [anneal] on two columns. *)
Lemma too_few_columns_witness :
  exists e, run0 (Anneal 100) (set_data engine0 data2)
            = (Raise e, entry (Anneal 100) (set_data engine0 data2)).
Proof.
  apply (too_few_columns tth0 noop_leastsq noop_slsqp noop_fmin
           noop_anneal silent_roca no_float).
  cbn. lia.
Defined.

(** [refine1] on a dataset without rows. *)
Lemma no_rows_nothing_to_improve_witness :
  (exists e, run0 Refine1 (set_data engine0 data_empty)
             = (Raise e, entry Refine1 (set_data engine0 data_empty)))
  \/ run0 Refine1 (set_data engine0 data_empty)
     = (Ok (PyFloat (Fin 0)), entry Refine1 (set_data engine0 data_empty)).
Proof.
  apply (no_rows_nothing_to_improve tth0 noop_leastsq noop_slsqp noop_fmin
           noop_anneal silent_roca no_float Refine1).
  reflexivity.
Defined.

(** [roca] on [engine_stale] when the tool prints a banner and an unknown
    three-word line. *)
Lemma roca_without_recognised_line_witness :
  snd (run tth_dist noop_leastsq noop_slsqp noop_fmin noop_anneal
         noisy_roca no_float Roca engine_stale) = engine_stale
  \/ snd (run tth_dist noop_leastsq noop_slsqp noop_fmin noop_anneal
            noisy_roca no_float Roca engine_stale)
     = set_param engine_stale (PyList (pose engine_stale)).
Proof.
  apply (roca_without_recognised_line tth_dist noop_leastsq noop_slsqp
           noop_fmin noop_anneal noisy_roca no_float engine_stale).
  intros tmpf _. repeat constructor.
Defined.

(** [roca] when the tool prints [dis 2 m] and [float] cannot read it. *)
Lemma roca_malformed_number_raises_witness :
  run tth0 noop_leastsq noop_slsqp noop_fmin noop_anneal roca_dis2 no_float
    Roca engine0
  = (Raise ValueError, engine0).
Proof.
  apply (roca_malformed_number_raises tth0 noop_leastsq noop_slsqp noop_fmin
           noop_anneal roca_dis2 no_float engine0 [[0; 0; 0]]
           "dis" "2" "m"); try reflexivity.
  left; reflexivity.
Defined.

(** The guess on [data1]. *)
Lemma guess_poni_is_centroid_of_innermost_ring_witness :
  exists m,
    is_tth_min m (rows data1) /\ innermost m (rows data1) <> [] /\
    guess_poni cartesian0 (set_data engine0 data1)
    = (Ok tt,
       set_poni (set_data engine0 data1)
         (centroid (fun r => fst (cartesian0 (nth 0 r 0) (nth 1 r 0)))
            (innermost m (rows data1)))
         (centroid (fun r => snd (cartesian0 (nth 0 r 0) (nth 1 r 0)))
            (innermost m (rows data1)))).
Proof.
  apply (guess_poni_is_centroid_of_innermost_ring cartesian0
           (set_data engine0 data1)).
  - discriminate.
  - cbn. lia.
Defined.

(** Construction on a dataset without rows, centre omitted. *)
Lemma init_centre_witness :
  exists e,
    __init__ cartesian0 None None (Some [3]) (set_data engine0 data_empty)
    = (Raise e, set_data engine0 data_empty).
Proof.
  apply (proj2 (proj2 (init_centre cartesian0 (set_data engine0 data_empty)
                         (Some [3])))).
  - reflexivity.
  - left; reflexivity.
Defined.

(** Construction with a centre on the concrete setting. *)
Lemma init_bounds_ordered_witness :
  getattr_min (snd (__init__ cartesian0 (Some 0) (Some 0) None engine0)) Pponi1
  <= getattr_max (snd (__init__ cartesian0 (Some 0) (Some 0) None engine0)) Pponi1.
Proof.
  apply (init_bounds_ordered cartesian0 engine0 (Some 0) (Some 0) None).
  - reflexivity.
  - cbn. lra.
  - cbn. lra.
Defined.

(** Construction without a table, then [refine1]. *)
Lemma init_without_table_witness :
  let self' := snd (__init__ cartesian0 (Some 0) (Some 0) None engine0) in
  exists e, run0 Refine1 self' = (Raise e, entry Refine1 self').
Proof.
  apply (init_without_table tth0 cartesian0 noop_leastsq noop_slsqp noop_fmin
           noop_anneal silent_roca no_float engine0 (Some 0) (Some 0) Refine1).
  - reflexivity.
  - discriminate.
Defined.

(** [chi2_wavelength()] twice on the concrete setting, whose [self.param]
    is a list. *)
Lemma chi2_wavelength_second_call_witness :
  let r1 := chi2_wavelength tth0 None engine0 in
  param (snd r1) = PyList ([1; 0; 0; 0; 0; 0] ++ [1e10 * wavelength engine0]) /\
  chi2_wavelength tth0 None (snd r1) = r1 /\
  (forall w, chi2_wavelength tth0 None (set_wavelength (snd r1) w)
             = (fst r1, set_wavelength (snd r1) w)).
Proof.
  apply (chi2_wavelength_second_call tth0 engine0 [1; 0; 0; 0; 0; 0]);
    reflexivity.
Defined.
